(** * isodraw: the drawing state engine

    A shallow embedding of the isometric drawing tool:

    - [script.js]: the command classes ([AddShapeCommand] ...
      [ImportShapesCommand]), [CommandManager] and [IsometricDrawingTool]
      (module [Script]);
    - the zustand store [useDrawingStore] of the React port (module
      [Store]) and its [CanvasEngine] (module [Engine]).

    JavaScript numbers are kept behind the interface [JSNumber]; its
    instance [Float64.float_JSNumber] is IEEE 754 binary64, the arithmetic
    the program runs on, and [Rational.Q_JSNumber] is exact rational
    arithmetic.  Rendering, DOM wiring and localStorage are left out: they
    do not write to the state the properties below speak of. *)

From Stdlib Require Import ZArith QArith Qround Lqa.
From Stdlib Require Import Floats.PrimFloat Floats.FloatOps Floats.SpecFloat.
From Stdlib Require Import Floats.FloatAxioms Uint63.
From Stdlib Require Import String Ascii Bool Lia.
From stdpp Require Import base list strings.

(** ** JavaScript numbers *)

(** The operations of the Number type the program uses.  [nlt a b] is
    [a < b] ([a > b] is [nlt b a]), [neq a b] is [a === b], [nround] is
    [Math.round] and [nlit q] the value of a decimal literal. *)
Class JSNumber (num : Type) := {
  nadd : num -> num -> num;
  nsub : num -> num -> num;
  nmul : num -> num -> num;
  ndiv : num -> num -> num;
  nlt : num -> num -> bool;
  neq : num -> num -> bool;
  nround : num -> num;
  nlit : Q -> num
}.

Declare Scope js_scope.
Delimit Scope js_scope with js.
Notation "a + b" := (nadd a b) : js_scope.
Notation "a - b" := (nsub a b) : js_scope.
Notation "a * b" := (nmul a b) : js_scope.
Notation "a / b" := (ndiv a b) : js_scope.
Notation "a <? b" := (nlt a b) : js_scope.
Notation "a >? b" := (nlt b a) : js_scope.
Notation "a =? b" := (neq a b) : js_scope.
Notation "a !=? b" := (negb (neq a b)) (at level 70) : js_scope.

(** An integer literal. *)
Definition int {num} `{JSNumber num} (z : Z) : num := nlit (inject_Z z).

(** [isNaN]: NaN is the one number that differs from itself. *)
Definition isNaN {num} `{JSNumber num} (a : num) : bool := negb (neq a a).

(** binary64, on Rocq's primitive floats. *)
Module Float64.

Definition of_Z (z : Z) : float :=
  match z with
  | Z0 => 0%float
  | Zpos _ => of_uint63 (Uint63.of_Z z)
  | Zneg p => (- of_uint63 (Uint63.of_Z (Zpos p)))%float
  end.

(** [Math.round] (ECMAScript 21.3.2.28): a number that is not finite or
    is integral is returned as it is; otherwise the result is the
    integer closest to [x], the one closer to +infinity on a tie, that
    is floor(x + 1/2) computed exactly; the zero keeps the sign of [x]. *)
Definition Math_round (x : float) : float :=
  match Prim2SF x with
  | S754_finite s m e =>
      if (0 <=? e)%Z then x
      else
        let d := (2 ^ (- e))%Z in
        let n := ((2 * (if s then Zneg m else Zpos m) + d) / (2 * d))%Z in
        if (n =? 0)%Z then (if s then (-0)%float else 0%float) else of_Z n
  | _ => x
  end.

#[global] Instance float_JSNumber : JSNumber float := {
  nadd := PrimFloat.add;
  nsub := PrimFloat.sub;
  nmul := PrimFloat.mul;
  ndiv := PrimFloat.div;
  nlt := PrimFloat.ltb;
  neq := PrimFloat.eqb;
  nround := Math_round;
  nlit q := (of_Z (Qnum q) / of_Z (Zpos (Qden q)))%float
}.

(** [Math.cos(Math.PI / 6)] and [Math.sin(Math.PI / 6)]: the binary64
    numbers 0.8660254037844387 and 0.49999999999999994. *)
Definition scaleX : float := 0x1.bb67ae8584cabp-1%float.
Definition scaleY : float := 0x1.fffffffffffffp-2%float.

(** The constructor's [gridSize], [isoWidth] and [isoHeight]. *)
Definition gridSize : float := int 30.
Definition isoWidth : float := (gridSize * scaleX)%float.
Definition isoHeight : float := (gridSize * scaleY)%float.

End Float64.

(** Exact rational arithmetic. *)
Module Rational.

#[global] Instance Q_JSNumber : JSNumber Q := {
  nadd := Qplus;
  nsub := Qminus;
  nmul := Qmult;
  ndiv := Qdiv;
  nlt a b := negb (Qle_bool b a);
  neq := Qeq_bool;
  nround q := inject_Z (Qfloor (q + (1 # 2)));
  nlit q := q
}.

End Rational.

(** ** Points and the isometric projection *)

Record Point (num : Type) := mkPoint { x : num; y : num }.
Arguments mkPoint {num} _ _.
Arguments x {num} _.
Arguments y {num} _.

Section CoordinateTransform.
Context {num : Type} `{JSNumber num}.
(** [this.isoWidth] and [this.isoHeight], set once by the constructor to
    [gridSize * Math.cos(angle)] and [gridSize * Math.sin(angle)]. *)
Variables isoWidth isoHeight : num.
Local Open Scope js_scope.

(** [this.canvas.width] and [this.canvas.height]. *)
Definition canvas_width : num := int 800.
Definition canvas_height : num := int 600.

Definition screenToNearestGridPoint (canvasX canvasY : num) : Point num :=
  let originX := canvas_width / int 2 in
  let originY := canvas_height / int 2 in
  let relX := canvasX - originX in
  let relY := canvasY - originY in
  let gridX := nround ((relX / isoWidth + relY / isoHeight) / int 2) in
  let gridY := nround ((relY / isoHeight - relX / isoWidth) / int 2) in
  {| x := gridX; y := gridY |}.

Definition gridToScreen (gridX gridY : num) : Point num :=
  let originX := canvas_width / int 2 in
  let originY := canvas_height / int 2 in
  let screenX := originX + (gridX - gridY) * isoWidth in
  let screenY := originY + (gridX + gridY) * isoHeight in
  {| x := screenX; y := screenY |}.

(** The snapping every handler applies to a raw position:
    [gridToScreen(gridPos.x, gridPos.y)] with
    [gridPos = screenToNearestGridPoint(canvasX, canvasY)]. *)
Definition snap (canvasX canvasY : num) : Point num :=
  let gridPos := screenToNearestGridPoint canvasX canvasY in
  gridToScreen (x gridPos) (y gridPos).

End CoordinateTransform.

(** ** Hit testing *)

Section HitTester.
Context {num : Type} `{JSNumber num}.
Local Open Scope js_scope.

(** One turn of the ray-casting loop, for the edge from [polygon[j]] to
    [polygon[i]]:
    [yi > y !== yj > y && x < ((xj - xi) * (y - yi)) / (yj - yi) + xi]. *)
Definition intersect (point pi pj : Point num) : bool :=
  let xi := x pi in let yi := y pi in
  let xj := x pj in let yj := y pj in
  negb (eqb (yi >? y point) (yj >? y point))
  && (x point <? ((xj - xi) * (y point - yi)) / (yj - yi) + xi).

(** The loop [for (i = 0, j = polygon.length - 1; i < polygon.length;
    j = i++)]: [pj] is the point of the previous turn, [rest] the points
    from index [i] on. *)
Fixpoint crossings (point pj : Point num) (rest : list (Point num))
    (inside : bool) : bool :=
  match rest with
  | [] => inside
  | pi :: rest' =>
      crossings point pi rest'
        (if intersect point pi pj then negb inside else inside)
  end.

Definition isPointInPolygon (point : Point num) (polygon : list (Point num))
    : bool :=
  match last polygon with
  | None => false
  | Some pj => crossings point pj polygon false
  end.

(** The same loop with every division checked: [None] as soon as a
    divisor is zero.  [&&] evaluates its right operand only when the
    left one is true. *)
Definition checked_div (a b : num) : option num :=
  if b =? int 0 then None else Some (a / b).

Definition intersect_checked (point pi pj : Point num) : option bool :=
  let xi := x pi in let yi := y pi in
  let xj := x pj in let yj := y pj in
  if negb (eqb (yi >? y point) (yj >? y point))
  then match checked_div ((xj - xi) * (y point - yi)) (yj - yi) with
       | Some q => Some (x point <? q + xi)
       | None => None
       end
  else Some false.

Fixpoint crossings_checked (point pj : Point num) (rest : list (Point num))
    (inside : bool) : option bool :=
  match rest with
  | [] => Some inside
  | pi :: rest' =>
      match intersect_checked point pi pj with
      | Some b =>
          crossings_checked point pi rest' (if b then negb inside else inside)
      | None => None
      end
  end.

Definition isPointInPolygon_checked (point : Point num)
    (polygon : list (Point num)) : option bool :=
  match last polygon with
  | None => Some false
  | Some pj => crossings_checked point pj polygon false
  end.

End HitTester.

(** The two facts about comparison and subtraction that the absence of a
    zero divisor rests on: [===] is a congruence for [>], and a difference
    is zero only between equal numbers. *)
Class OrderedNumber (num : Type) `{JSNumber num} : Prop := {
  ngt_eq : forall a b c : num, neq a b = true -> nlt c a = nlt c b;
  nsub_eq_0 : forall a b : num, neq (nsub b a) (int 0) = true -> neq a b = true
}.

(** ** Shapes and array helpers *)

Record Shape (num : Type) := mkShape {
  id : nat;
  points : list (Point num);
  color : string
}.
Arguments mkShape {num} _ _ _.
Arguments id {num} _.
Arguments points {num} _.
Arguments color {num} _.

Section Arrays.
Context {A : Type}.

(** [Array.prototype.findIndex]; [None] stands for -1. *)
Fixpoint findIndex (f : A -> bool) (l : list A) : option nat :=
  match l with
  | [] => None
  | a :: l' => if f a then Some 0 else S <$> findIndex f l'
  end.

(** [for (let i = n - 1; i >= 0; i--) { if (f(l[i])) { ...; break; } }]:
    the index the loop stops at, scanning down from [n - 1]. *)
Fixpoint scanDown (f : A -> bool) (l : list A) (n : nat) : option nat :=
  match n with
  | O => None
  | S i =>
      match l !! i with
      | Some a => if f a then Some i else scanDown f l i
      | None => scanDown f l i
      end
  end.

(** [l.splice(i, 0, a)]: an index past the end appends. *)
Definition spliceIn (i : nat) (a : A) (l : list A) : list A :=
  take i l ++ a :: drop i l.

(** [Array.prototype.pop]: the last element and the rest. *)
Definition pop (l : list A) : option (A * list A) :=
  match last l with
  | Some a => Some (a, removelast l)
  | None => None
  end.

End Arrays.

Definition setColor {num} (c : string) (s : Shape num) : Shape num :=
  {| id := id s; points := points s; color := c |}.

Definition setPoint {num} (j : nat) (p : Point num) (s : Shape num) : Shape num :=
  {| id := id s; points := <[j := p]> (points s); color := color s |}.

(** ** The palette *)

Definition maxPaletteSize : nat := 10.

(** The body of [addPaletteColor], the same in both variants: move the
    colour to the end, drop the oldest beyond ten. *)
Definition touchPalette (c : string) (paletteColors : list string)
    : list string :=
  let removed :=
    match findIndex (String.eqb c) paletteColors with
    | Some existingIndex => delete existingIndex paletteColors
    | None => paletteColors
    end in
  let pushed := removed ++ [c] in
  if (maxPaletteSize <? length pushed)%nat then tail pushed else pushed.

(** The elements of [new Set(l)] in insertion order. *)
Fixpoint uniqueColors (seen l : list string) : list string :=
  match l with
  | [] => []
  | c :: l' =>
      if existsb (String.eqb c) seen then uniqueColors seen l'
      else c :: uniqueColors (c :: seen) l'
  end.

(** ** Picking shapes and points, closing a drawing

    These loops and tests read the same in [script.js] and in
    [CanvasEngine]. *)

Section Gestures.
Context {num : Type} `{JSNumber num}.

Abbreviation Point := (Point num).
Abbreviation Shape := (Shape num).

Definition dragPointRadius : num := int 8.

(** [dx * dx + dy * dy < this.dragPointRadius * this.dragPointRadius]. *)
Definition near (canvasX canvasY : num) (point : Point) : bool :=
  let dx := (canvasX - x point)%js in
  let dy := (canvasY - y point)%js in
  (dx * dx + dy * dy <? dragPointRadius * dragPointRadius)%js.

(** Edit mode, the two nested loops of [handleMouseDown]: shapes from
    the last one down, the points of each from the first one up; the
    indices [(i, j)] of the first point within the radius. *)
Fixpoint editScan (canvasX canvasY : num) (l : list Shape) (n : nat)
    : option (nat * nat) :=
  match n with
  | O => None
  | S i =>
      match l !! i with
      | Some shape =>
          match findIndex (near canvasX canvasY) (points shape) with
          | Some j => Some (i, j)
          | None => editScan canvasX canvasY l i
          end
      | None => editScan canvasX canvasY l i
      end
  end.

(** The loop of delete mode (and of [CanvasEngine]'s fill mode): it
    stops at the first shape, from the last one down, that
    [isPointInPolygon] accepts. *)
Definition hitScan (canvasX canvasY : num) (l : list Shape) : option nat :=
  scanDown (fun shape => isPointInPolygon (mkPoint canvasX canvasY) (points shape))
    l (length l).

(** [(this.dragPointRadius * 1.5) ** 2]; the square is the product of
    the number with itself. *)
Definition closeToleranceSq : num :=
  let r := (dragPointRadius * nlit (3 # 2))%js in (r * r)%js.

(** [isClosing] of the drawing branch. *)
Definition isClosing (clickedScreenPos startPoint : Point)
    (currentShapePoints : list Point) : bool :=
  let dx := (x clickedScreenPos - x startPoint)%js in
  let dy := (y clickedScreenPos - y startPoint)%js in
  (dx * dx + dy * dy <? closeToleranceSq)%js
  && (3 <=? length currentShapePoints)%nat.

End Gestures.

(** ** SVG import *)

(** What the parser reads of a [polygon] or [polyline] element: the
    results of [getAttribute], [None] for [null]. *)
Record Element := mkElement {
  attrPoints : option string;
  attrFill : option string;
  attrStroke : option string
}.

(** What [parseSVGContent] asks of the parsed document:
    [getElementById("shapes")], as the [polygon] and [polyline] elements
    under it, and [querySelectorAll("polygon, polyline")] on the whole
    document. *)
Record SVGDocument := mkDocument {
  shapesGroup : option (list Element);
  allShapeElements : list Element
}.

Section Strings.

(** The ASCII characters of the class [\s]. *)
Definition isSpace (c : ascii) : bool :=
  match c with
  | " " | "009" | "010" | "011" | "012" | "013" => true
  | _ => false
  end%char.

(** [s.split(/\s+/)] on the characters of [s]: [cur] is the piece
    being read, [inSep] tells that the last character was a space. *)
Fixpoint splitSpaces (l cur : list ascii) (inSep : bool) : list (list ascii) :=
  match l with
  | [] => [cur]
  | c :: l' =>
      if isSpace c
      then if inSep then splitSpaces l' cur true
           else cur :: splitSpaces l' [] true
      else splitSpaces l' (cur ++ [c]) false
  end.

(** [s.split(",")]. *)
Fixpoint splitComma (l cur : list ascii) : list (list ascii) :=
  match l with
  | [] => [cur]
  | c :: l' =>
      if Ascii.eqb c ","%char then cur :: splitComma l' []
      else splitComma l' (cur ++ [c])
  end.

Fixpoint dropSpaces (l : list ascii) : list ascii :=
  match l with
  | [] => []
  | c :: l' => if isSpace c then dropSpaces l' else l
  end.

(** [s.trim()]. *)
Definition trim (s : string) : string :=
  string_of_list_ascii
    (rev (dropSpaces (rev (dropSpaces (list_ascii_of_string s))))).

End Strings.

(** [a || b] on attribute values: [null] and the empty string are falsy. *)
Definition orElse (a : option string) (b : option string) : option string :=
  match a with
  | Some EmptyString | None => b
  | Some _ => a
  end.

Section SVGCodec.
Context {num : Type} `{JSNumber num}.
Variables isoWidth isoHeight : num.
(** The built-ins [parseFloat] and [new DOMParser().parseFromString(_,
    "image/svg+xml")]. *)
Variable parseFloat : string -> num.
Variable parseFromString : string -> SVGDocument.

(** The callback of [.map] over the pairs: [null] is [None].  A pair
    without a comma leaves [yStr] undefined, which [parseFloat] reads as
    the string ["undefined"]. *)
Definition parsePair (pair : list ascii) : option (Point num) :=
  let parts := splitComma pair [] in
  let xStr := default "undefined"%string (string_of_list_ascii <$> parts !! 0) in
  let yStr := default "undefined"%string (string_of_list_ascii <$> parts !! 1) in
  let x := parseFloat xStr in
  let y := parseFloat yStr in
  if negb (isNaN x) && negb (isNaN y)
  then Some (snap isoWidth isoHeight x y)
  else None.

(** The callback of [shapeElements.forEach]: the [{ points, color }] the
    element adds to [parsedShapes], if any. *)
Definition parseElement (el : Element) : option (list (Point num) * string) :=
  match trim <$> attrPoints el with
  | None | Some EmptyString => None
  | Some pointsString =>
      let c :=
        default "#000000"%string
          (orElse (orElse (attrFill el) (attrStroke el)) (Some "#000000"%string)) in
      let pts :=
        omap parsePair (splitSpaces (list_ascii_of_string pointsString) [] false) in
      if (1 <? length pts)%nat then Some (pts, c) else None
  end.

(** [parseSVGContent] of [script.js]. *)
Definition parseSVGContent (svgContent : string)
    : list (list (Point num) * string) :=
  let svgDoc := parseFromString svgContent in
  let shapeElements :=
    match shapesGroup svgDoc with
    | Some inGroup => inGroup
    | None => allShapeElements svgDoc
    end in
  omap parseElement shapeElements.

(** [parseSVGContent] of [CanvasEngine]: no look at the group. *)
Definition parseSVGContent_engine (svgContent : string)
    : list (list (Point num) * string) :=
  omap parseElement (allShapeElements (parseFromString svgContent)).

End SVGCodec.

(** ** script.js: commands, command manager and the drawing tool *)

Module Script.
Section Tool.
Context {num : Type} `{JSNumber num}.
Variables isoWidth isoHeight : num.

Abbreviation Point := (Point num).
Abbreviation Shape := (Shape num).

(** [shapeData] of [AddShapeCommand]: [{ points, color }], the id is
    added by the first [execute]. *)
Record ShapeData := mkShapeData {
  dataPoints : list Point;
  dataColor : string;
  dataId : option nat
}.

Inductive Command :=
| AddShapeCommand (shapeData : ShapeData)
| DeleteShapeCommand (shapeIndex : nat) (deletedShape : Shape)
| FillShapeCommand (shapeIndex : nat) (oldColor newColor : string)
| EditShapePointCommand (shapeIndex pointIndex : nat) (oldPoint newPoint : Point)
| ClearAllCommand (originalShapes : list Shape)
| ImportShapesCommand (shapesToAdd : list Shape).

(** The fields of [IsometricDrawingTool] that the handlers read and
    write, with the two stacks of its [commandManager].  For
    [selectedShapeIndex] and [selectedPointIndex], [None] is -1. *)
Record Tool := mkTool {
  shapes : list Shape;
  isDrawing : bool;
  currentShapePoints : list Point;
  snapPoint : option Point;
  currentColor : string;
  isFillMode : bool;
  isDeleteMode : bool;
  isEditMode : bool;
  isDragging : bool;
  selectedShapeIndex : option nat;
  selectedPointIndex : option nat;
  dragStartPoint : option Point;
  paletteColors : list string;
  shapeIdCounter : nat;
  undoStack : list Command;
  redoStack : list Command
}.

Definition withShapes (v : list Shape) (t : Tool) : Tool :=
  {| shapes := v; isDrawing := isDrawing t;
     currentShapePoints := currentShapePoints t; snapPoint := snapPoint t;
     currentColor := currentColor t; isFillMode := isFillMode t;
     isDeleteMode := isDeleteMode t; isEditMode := isEditMode t;
     isDragging := isDragging t; selectedShapeIndex := selectedShapeIndex t;
     selectedPointIndex := selectedPointIndex t;
     dragStartPoint := dragStartPoint t; paletteColors := paletteColors t;
     shapeIdCounter := shapeIdCounter t; undoStack := undoStack t;
     redoStack := redoStack t |}.

Definition withPalette (v : list string) (t : Tool) : Tool :=
  {| shapes := shapes t; isDrawing := isDrawing t;
     currentShapePoints := currentShapePoints t; snapPoint := snapPoint t;
     currentColor := currentColor t; isFillMode := isFillMode t;
     isDeleteMode := isDeleteMode t; isEditMode := isEditMode t;
     isDragging := isDragging t; selectedShapeIndex := selectedShapeIndex t;
     selectedPointIndex := selectedPointIndex t;
     dragStartPoint := dragStartPoint t; paletteColors := v;
     shapeIdCounter := shapeIdCounter t; undoStack := undoStack t;
     redoStack := redoStack t |}.

Definition withCounter (v : nat) (t : Tool) : Tool :=
  {| shapes := shapes t; isDrawing := isDrawing t;
     currentShapePoints := currentShapePoints t; snapPoint := snapPoint t;
     currentColor := currentColor t; isFillMode := isFillMode t;
     isDeleteMode := isDeleteMode t; isEditMode := isEditMode t;
     isDragging := isDragging t; selectedShapeIndex := selectedShapeIndex t;
     selectedPointIndex := selectedPointIndex t;
     dragStartPoint := dragStartPoint t; paletteColors := paletteColors t;
     shapeIdCounter := v; undoStack := undoStack t;
     redoStack := redoStack t |}.

Definition withStacks (u r : list Command) (t : Tool) : Tool :=
  {| shapes := shapes t; isDrawing := isDrawing t;
     currentShapePoints := currentShapePoints t; snapPoint := snapPoint t;
     currentColor := currentColor t; isFillMode := isFillMode t;
     isDeleteMode := isDeleteMode t; isEditMode := isEditMode t;
     isDragging := isDragging t; selectedShapeIndex := selectedShapeIndex t;
     selectedPointIndex := selectedPointIndex t;
     dragStartPoint := dragStartPoint t; paletteColors := paletteColors t;
     shapeIdCounter := shapeIdCounter t; undoStack := u; redoStack := r |}.

Definition withDrawing (b : bool) (pts : list Point) (sp : option Point) (t : Tool) : Tool :=
  {| shapes := shapes t; isDrawing := b; currentShapePoints := pts;
     snapPoint := sp; currentColor := currentColor t;
     isFillMode := isFillMode t; isDeleteMode := isDeleteMode t;
     isEditMode := isEditMode t; isDragging := isDragging t;
     selectedShapeIndex := selectedShapeIndex t;
     selectedPointIndex := selectedPointIndex t;
     dragStartPoint := dragStartPoint t; paletteColors := paletteColors t;
     shapeIdCounter := shapeIdCounter t; undoStack := undoStack t;
     redoStack := redoStack t |}.

Definition withSnapPoint (sp : option Point) (t : Tool) : Tool :=
  {| shapes := shapes t; isDrawing := isDrawing t;
     currentShapePoints := currentShapePoints t; snapPoint := sp;
     currentColor := currentColor t; isFillMode := isFillMode t;
     isDeleteMode := isDeleteMode t; isEditMode := isEditMode t;
     isDragging := isDragging t; selectedShapeIndex := selectedShapeIndex t;
     selectedPointIndex := selectedPointIndex t;
     dragStartPoint := dragStartPoint t; paletteColors := paletteColors t;
     shapeIdCounter := shapeIdCounter t; undoStack := undoStack t;
     redoStack := redoStack t |}.

Definition withCurrentColor (c : string) (t : Tool) : Tool :=
  {| shapes := shapes t; isDrawing := isDrawing t;
     currentShapePoints := currentShapePoints t; snapPoint := snapPoint t;
     currentColor := c; isFillMode := isFillMode t;
     isDeleteMode := isDeleteMode t; isEditMode := isEditMode t;
     isDragging := isDragging t; selectedShapeIndex := selectedShapeIndex t;
     selectedPointIndex := selectedPointIndex t;
     dragStartPoint := dragStartPoint t; paletteColors := paletteColors t;
     shapeIdCounter := shapeIdCounter t; undoStack := undoStack t;
     redoStack := redoStack t |}.

Definition withModes (f d e : bool) (t : Tool) : Tool :=
  {| shapes := shapes t; isDrawing := isDrawing t;
     currentShapePoints := currentShapePoints t; snapPoint := snapPoint t;
     currentColor := currentColor t; isFillMode := f; isDeleteMode := d;
     isEditMode := e; isDragging := isDragging t;
     selectedShapeIndex := selectedShapeIndex t;
     selectedPointIndex := selectedPointIndex t;
     dragStartPoint := dragStartPoint t; paletteColors := paletteColors t;
     shapeIdCounter := shapeIdCounter t; undoStack := undoStack t;
     redoStack := redoStack t |}.

Definition withDrag (b : bool) (i j : option nat) (p : option Point) (t : Tool) : Tool :=
  {| shapes := shapes t; isDrawing := isDrawing t;
     currentShapePoints := currentShapePoints t; snapPoint := snapPoint t;
     currentColor := currentColor t; isFillMode := isFillMode t;
     isDeleteMode := isDeleteMode t; isEditMode := isEditMode t;
     isDragging := b; selectedShapeIndex := i; selectedPointIndex := j;
     dragStartPoint := p; paletteColors := paletteColors t;
     shapeIdCounter := shapeIdCounter t; undoStack := undoStack t;
     redoStack := redoStack t |}.


(** *** Commands *)

Definition getNextShapeId (t : Tool) : nat * Tool :=
  let n := shapeIdCounter t + 1 in (n, withCounter n t).

Definition addPaletteColor (c : string) (t : Tool) : Tool :=
  withPalette (touchPalette c (paletteColors t)) t.

Definition hasId (i : nat) (s : Shape) : bool := (id s =? i)%nat.

(** [ImportShapesCommand.execute], one turn of its [forEach]. *)
Definition importOne (t : Tool) (shape : Shape) : Tool :=
  if existsb (hasId (id shape)) (shapes t) then t
  else addPaletteColor (color shape) (withShapes (shapes t ++ [shape]) t).

(** [ImportShapesCommand.undo], one turn of its [forEach]. *)
Definition removeOne (l : list Shape) (shape : Shape) : list Shape :=
  match findIndex (hasId (id shape)) l with
  | Some index => delete index l
  | None => l
  end.

Definition renderPaletteFromShapes (t : Tool) : Tool :=
  let unique := uniqueColors [] (color <$> shapes t) in
  withPalette (drop (length unique - maxPaletteSize) unique) t.

(** [command.execute()]: the tool after it, and the command itself,
    which [AddShapeCommand] completes with the id it drew. *)
Definition execute (c : Command) (t : Tool) : Command * Tool :=
  match c with
  | AddShapeCommand d =>
      let '(i, t1) :=
        match dataId d with
        | None => getNextShapeId t
        | Some i => (i, t)
        end in
      let shape := mkShape i (dataPoints d) (dataColor d) in
      (AddShapeCommand (mkShapeData (dataPoints d) (dataColor d) (Some i)),
       addPaletteColor (dataColor d) (withShapes (shapes t1 ++ [shape]) t1))
  | DeleteShapeCommand shapeIndex _ =>
      (c, if (shapeIndex <? length (shapes t))%nat
          then withShapes (delete shapeIndex (shapes t)) t
          else t)
  | FillShapeCommand shapeIndex _ newColor =>
      (c, match shapes t !! shapeIndex with
          | Some _ =>
              addPaletteColor newColor
                (withShapes (alter (setColor newColor) shapeIndex (shapes t)) t)
          | None => t
          end)
  | EditShapePointCommand shapeIndex pointIndex _ newPoint =>
      (c, match shapes t !! shapeIndex with
          | Some shape =>
              match points shape !! pointIndex with
              | Some _ =>
                  withShapes
                    (alter (setPoint pointIndex newPoint) shapeIndex (shapes t)) t
              | None => t
              end
          | None => t
          end)
  | ClearAllCommand _ => (c, withPalette [] (withShapes [] t))
  | ImportShapesCommand shapesToAdd => (c, foldl importOne t shapesToAdd)
  end.

(** [command.undo()]. *)
Definition undoCommand (c : Command) (t : Tool) : Tool :=
  match c with
  | AddShapeCommand d =>
      match dataId d with
      | Some i =>
          match findIndex (hasId i) (shapes t) with
          | Some index => withShapes (delete index (shapes t)) t
          | None => t
          end
      | None => t
      end
  | DeleteShapeCommand shapeIndex deletedShape =>
      addPaletteColor (color deletedShape)
        (withShapes (spliceIn shapeIndex deletedShape (shapes t)) t)
  | FillShapeCommand shapeIndex oldColor _ =>
      match shapes t !! shapeIndex with
      | Some _ => withShapes (alter (setColor oldColor) shapeIndex (shapes t)) t
      | None => t
      end
  | EditShapePointCommand shapeIndex pointIndex oldPoint _ =>
      match shapes t !! shapeIndex with
      | Some shape =>
          match points shape !! pointIndex with
          | Some _ =>
              withShapes
                (alter (setPoint pointIndex oldPoint) shapeIndex (shapes t)) t
          | None => t
          end
      | None => t
      end
  | ClearAllCommand originalShapes =>
      foldl (fun t' shape => addPaletteColor (color shape) t')
        (withPalette [] (withShapes originalShapes t)) originalShapes
  | ImportShapesCommand shapesToAdd =>
      renderPaletteFromShapes
        (withShapes (foldl removeOne (shapes t) shapesToAdd) t)
  end.

(** The constructor of [ImportShapesCommand]: every imported
    [{ points, color }] gets the next id. *)
Fixpoint assignIds (importedShapesData : list (list Point * string))
    (t : Tool) : list Shape * Tool :=
  match importedShapesData with
  | [] => ([], t)
  | (pts, c) :: rest =>
      let '(i, t1) := getNextShapeId t in
      let '(shapesToAdd, t2) := assignIds rest t1 in
      (mkShape i pts c :: shapesToAdd, t2)
  end.

(** *** CommandManager *)

Definition managerExecute (command : Command) (t : Tool) : Tool :=
  let '(command', t1) := execute command t in
  withStacks (undoStack t1 ++ [command']) [] t1.

Definition managerUndo (t : Tool) : Tool :=
  match pop (undoStack t) with
  | Some (command, rest) =>
      let t1 := undoCommand command t in
      withStacks rest (redoStack t1 ++ [command]) t1
  | None => t
  end.

Definition managerRedo (t : Tool) : Tool :=
  match pop (redoStack t) with
  | Some (command, rest) =>
      let '(command', t1) := execute command t in
      withStacks (undoStack t1 ++ [command']) rest t1
  | None => t
  end.

(** The tool as its constructor leaves it when nothing is stored;
    [currentColor] is the value of the colour picker. *)
Definition newTool (currentColor : string) : Tool :=
  {| shapes := []; isDrawing := false; currentShapePoints := [];
     snapPoint := None; currentColor := currentColor; isFillMode := false;
     isDeleteMode := false; isEditMode := false; isDragging := false;
     selectedShapeIndex := None; selectedPointIndex := None;
     dragStartPoint := None; paletteColors := []; shapeIdCounter := 0;
     undoStack := []; redoStack := [] |}.

(** *** The tool's handlers *)

Inductive ToolName := draw | fill | delete_ | edit.

Definition cancelDrawing (t : Tool) : Tool := withDrawing false [] None t.

Definition setActiveTool (toolName : ToolName) (t : Tool) : Tool :=
  let t1 :=
    withDrag false None None (dragStartPoint t)
      (withModes false false false
         (withDrawing false (currentShapePoints t) (snapPoint t) t)) in
  let t2 :=
    match toolName with
    | fill => withModes true false false t1
    | delete_ => withModes false true false t1
    | edit => withModes false false true t1
    | draw => t1
    end in
  match currentShapePoints t2, toolName with
  | [], _ | _, draw => t2
  | _ :: _, _ => cancelDrawing t2
  end.

(** Fill mode: the loop stops at the first shape, from the last one
    down, that has more than two points and that [isPointInPolygon]
    accepts.  (Delete mode uses [hitScan].) *)
Definition fillScan (canvasX canvasY : num) (l : list Shape) : option nat :=
  scanDown
    (fun shape =>
       (2 <? length (points shape))%nat
       && isPointInPolygon (mkPoint canvasX canvasY) (points shape))
    l (length l).

(** [handleMouseDown(e)] for [e.button = button] at the canvas
    coordinates of the event. *)
Definition handleMouseDown (button : nat) (canvasX canvasY : num) (t : Tool)
    : Tool :=
  if negb (button =? 0)%nat then t
  else if isEditMode t then
    let t0 := withDrag false None None None t in
    match editScan canvasX canvasY (shapes t0) (length (shapes t0)) with
    | Some (i, j) =>
        match shapes t0 !! i ≫= (fun shape => points shape !! j) with
        | Some point => withDrag true (Some i) (Some j) (Some point) t0
        | None => t0
        end
    | None => t0
    end
  else if isDeleteMode t then
    match hitScan canvasX canvasY (shapes t) with
    | Some i =>
        match shapes t !! i with
        | Some shape => managerExecute (DeleteShapeCommand i shape) t
        | None => t
        end
    | None => t
    end
  else if isFillMode t then
    match fillScan canvasX canvasY (shapes t) with
    | Some i =>
        match shapes t !! i with
        | Some shape =>
            if negb (String.eqb (color shape) (currentColor t))
            then managerExecute
                   (FillShapeCommand i (color shape) (currentColor t)) t
            else t
        | None => t
        end
    | None => t
    end
  else
    let clickedScreenPos := snap isoWidth isoHeight canvasX canvasY in
    if negb (isDrawing t)
    then withDrawing true [clickedScreenPos] (Some clickedScreenPos) t
    else
      match head (currentShapePoints t), last (currentShapePoints t) with
      | Some startPoint, Some lastPoint =>
          if isClosing clickedScreenPos startPoint (currentShapePoints t)
          then
            let shapeData :=
              mkShapeData (currentShapePoints t) (currentColor t) None in
            withDrawing false [] None
              (managerExecute (AddShapeCommand shapeData) t)
          else if (x clickedScreenPos !=? x lastPoint)%js
                  || (y clickedScreenPos !=? y lastPoint)%js
          then withDrawing (isDrawing t)
                 (currentShapePoints t ++ [clickedScreenPos])
                 (Some clickedScreenPos) t
          else t
      | _, _ => t (* not reached: [isDrawing] is set with a first point *)
      end.

(** [l[j] = a]: past the end the array grows, and beyond [l.length] it
    would get holes, which a list does not have ([None]). *)
Definition assign {A} (j : nat) (a : A) (l : list A) : option (list A) :=
  if (j <? length l)%nat then Some (<[j := a]> l)
  else if (j =? length l)%nat then Some (l ++ [a])
  else None.

(** [handleMouseMove(e)]; [None] where the source throws a TypeError
    (no shape at the selected index) or leaves a sparse array. *)
Definition handleMouseMove (canvasX canvasY : num) (t : Tool) : option Tool :=
  if isDragging t && isEditMode t then
    match selectedShapeIndex t, selectedPointIndex t with
    | Some i, Some j =>
        let snappedScreenPos := snap isoWidth isoHeight canvasX canvasY in
        shape ← shapes t !! i;
        pts ← assign j snappedScreenPos (points shape);
        Some (withShapes
                (<[i := mkShape (id shape) pts (color shape)]> (shapes t)) t)
    | _, _ => Some t
    end
  else if isEditMode t || isFillMode t || isDeleteMode t
  then Some (withSnapPoint None t)
  else Some (withSnapPoint (Some (snap isoWidth isoHeight canvasX canvasY)) t).

(** [handleMouseUp(e)]; [button] is [None] for the call with [null] from
    [handleMouseOut]. *)
Definition handleMouseUp (button : option nat) (t : Tool) : option Tool :=
  match button with
  | Some (S _) => Some t
  | _ =>
      if isDragging t && isEditMode t then
        t1 ← match selectedShapeIndex t, selectedPointIndex t, dragStartPoint t with
             | Some i, Some j, Some start =>
                 shape ← shapes t !! i;
                 finalPoint ← points shape !! j;
                 if (x finalPoint !=? x start)%js || (y finalPoint !=? y start)%js
                 then Some (managerExecute
                              (EditShapePointCommand i j start finalPoint) t)
                 else Some t
             | _, _, _ => Some t
             end;
        Some (withDrag false None None None t1)
      else Some t
  end.

Definition clearCanvas (t : Tool) : Tool :=
  let t1 :=
    match shapes t with
    | [] => t
    | _ :: _ => managerExecute (ClearAllCommand (shapes t)) t
    end in
  setActiveTool draw (cancelDrawing t1).

(** The [onload] callback of [handleFileImport], once the file is
    parsed. *)
Definition importShapes (importedShapesData : list (list Point * string))
    (t : Tool) : Tool :=
  match importedShapesData with
  | [] => t
  | _ :: _ =>
      let '(shapesToAdd, t1) := assignIds importedShapesData t in
      managerExecute (ImportShapesCommand shapesToAdd) t1
  end.

Definition undo (t : Tool) : Tool :=
  if isDrawing t then cancelDrawing t else managerUndo t.

Definition redo (t : Tool) : Tool := managerRedo t.

(** [handleMouseOut()]: a drag in progress is ended as by a release, and
    the snap point is cleared unless the tool is drawing or editing. *)
Definition handleMouseOut (t : Tool) : option Tool :=
  t1 ← (if isDragging t && isEditMode t then handleMouseUp None t else Some t);
  Some (if negb (isDrawing t1) && negb (isEditMode t1)
        then withSnapPoint None t1 else t1).

(** What [handleKeyDown] reads of the keyboard event. *)
Record KeyEvent := mkKeyEvent {
  ctrlKey : bool;
  metaKey : bool;
  shiftKey : bool;
  key : string
}.

(** [handleKeyDown(e)]: Ctrl/Cmd+Z undoes, with Shift it redoes; Escape
    cancels the drawing in progress, otherwise it returns to the draw
    tool.  [e.key.toLowerCase() === "z"] holds for the keys ["z"] and
    ["Z"]. *)
Definition handleKeyDown (e : KeyEvent) (t : Tool) : Tool :=
  if (ctrlKey e || metaKey e)
     && (String.eqb (key e) "z" || String.eqb (key e) "Z")
  then if shiftKey e then redo t else undo t
  else if String.eqb (key e) "Escape" then
    if isDrawing t then cancelDrawing t
    else if isFillMode t || isDeleteMode t || isEditMode t
    then setActiveTool draw t
    else t
  else t.

(** *** The listeners of [initializeEventListeners] *)

(** The built-ins that [handleFileImport] reaches through
    [parseSVGContent]. *)
Variable parseFloat : string -> num.
Variable parseFromString : string -> SVGDocument.

(** The events the tool listens to: the mouse on the canvas, the
    keyboard, the colour picker (a click on a palette swatch sets the
    colour in the same way), the tool buttons, the clear, undo and redo
    buttons, and a file read for import. *)
Inductive Event :=
| MouseDown (button : nat) (canvasX canvasY : num)
| MouseMove (canvasX canvasY : num)
| MouseUp (button : nat)
| MouseOut
| KeyDown (e : KeyEvent)
| ColorInput (value : string)
| ToolButton (toolName : ToolName)
| ClearButton
| UndoButton
| RedoButton
| FileLoaded (svgContent : string).

(** The listener of each event; [None] where it throws. *)
Definition handle (ev : Event) (t : Tool) : option Tool :=
  match ev with
  | MouseDown button canvasX canvasY =>
      Some (handleMouseDown button canvasX canvasY t)
  | MouseMove canvasX canvasY => handleMouseMove canvasX canvasY t
  | MouseUp button => handleMouseUp (Some button) t
  | MouseOut => handleMouseOut t
  | KeyDown e => Some (handleKeyDown e t)
  | ColorInput value => Some (withCurrentColor value t)
  | ToolButton toolName => Some (setActiveTool toolName t)
  | ClearButton => Some (clearCanvas t)
  | UndoButton => Some (undo t)
  | RedoButton => Some (redo t)
  | FileLoaded svgContent =>
      Some (importShapes
              (parseSVGContent isoWidth isoHeight parseFloat parseFromString
                 svgContent) t)
  end.

(** The events of a list handled in turn. *)
Definition run (evs : list Event) (t : Tool) : option Tool :=
  foldl (fun t' ev => t' ≫= handle ev) (Some t) evs.

End Tool.

Arguments AddShapeCommand {num} _.
Arguments DeleteShapeCommand {num} _ _.
Arguments FillShapeCommand {num} _ _ _.
Arguments EditShapePointCommand {num} _ _ _ _.
Arguments ClearAllCommand {num} _.
Arguments ImportShapesCommand {num} _.
Arguments mkShapeData {num} _ _ _.
Arguments mkTool {num} _ _ _ _ _ _ _ _ _ _ _ _ _ _ _ _.

End Script.

(** ** The zustand store [useDrawingStore] *)

Module Store.
Section Store.
Context {num : Type} `{JSNumber num}.

Abbreviation Point := (Point num).
Abbreviation Shape := (Shape num).

Inductive ToolName := draw | fill | delete_ | edit.

(** [UndoAction]: [{ type, payload }], for the six types the store
    writes. *)
Inductive UndoAction :=
| DELETE_SHAPE (shapeId : nat)
| ADD_SHAPE (shape : Shape)
| FILL_SHAPE (shapeId : nat) (c : string)
| EDIT_SHAPE_POINT (shapeIndex pointIndex : nat) (point : Point)
| IMPORT_SHAPES (shapesToRestore : list Shape)
| DELETE_MULTIPLE_SHAPES (shapeIds : list nat).

Record CurrentDrawing := mkDrawing {
  isDrawing : bool;
  drawingPoints : list Point
}.

(** [selection]; [None] is the index -1. *)
Record Selection := mkSelection {
  shapeIndex : option nat;
  pointIndex : option nat;
  isDragging : bool;
  dragStartPoint : option Point
}.

Record DrawingState := mkState {
  shapes : list Shape;
  paletteColors : list string;
  shapeIdCounter : nat;
  activeTool : ToolName;
  currentColor : string;
  currentDrawing : CurrentDrawing;
  selection : Selection;
  undoStack : list UndoAction;
  redoStack : list UndoAction;
  snapPoint : option Point
}.

Definition setShapes (v : list Shape) (st : DrawingState) : DrawingState :=
  {| shapes := v; paletteColors := paletteColors st;
     shapeIdCounter := shapeIdCounter st; activeTool := activeTool st;
     currentColor := currentColor st; currentDrawing := currentDrawing st;
     selection := selection st; undoStack := undoStack st;
     redoStack := redoStack st; snapPoint := snapPoint st |}.

Definition setPalette (v : list string) (st : DrawingState) : DrawingState :=
  {| shapes := shapes st; paletteColors := v;
     shapeIdCounter := shapeIdCounter st; activeTool := activeTool st;
     currentColor := currentColor st; currentDrawing := currentDrawing st;
     selection := selection st; undoStack := undoStack st;
     redoStack := redoStack st; snapPoint := snapPoint st |}.

Definition setCounter (v : nat) (st : DrawingState) : DrawingState :=
  {| shapes := shapes st; paletteColors := paletteColors st;
     shapeIdCounter := v; activeTool := activeTool st;
     currentColor := currentColor st; currentDrawing := currentDrawing st;
     selection := selection st; undoStack := undoStack st;
     redoStack := redoStack st; snapPoint := snapPoint st |}.

Definition setTool (v : ToolName) (st : DrawingState) : DrawingState :=
  {| shapes := shapes st; paletteColors := paletteColors st;
     shapeIdCounter := shapeIdCounter st; activeTool := v;
     currentColor := currentColor st; currentDrawing := currentDrawing st;
     selection := selection st; undoStack := undoStack st;
     redoStack := redoStack st; snapPoint := snapPoint st |}.

Definition setCurrentDrawing (v : CurrentDrawing) (st : DrawingState) : DrawingState :=
  {| shapes := shapes st; paletteColors := paletteColors st;
     shapeIdCounter := shapeIdCounter st; activeTool := activeTool st;
     currentColor := currentColor st; currentDrawing := v;
     selection := selection st; undoStack := undoStack st;
     redoStack := redoStack st; snapPoint := snapPoint st |}.

Definition setSelection (v : Selection) (st : DrawingState) : DrawingState :=
  {| shapes := shapes st; paletteColors := paletteColors st;
     shapeIdCounter := shapeIdCounter st; activeTool := activeTool st;
     currentColor := currentColor st; currentDrawing := currentDrawing st;
     selection := v; undoStack := undoStack st; redoStack := redoStack st;
     snapPoint := snapPoint st |}.

Definition setStacks (u r : list UndoAction) (st : DrawingState) : DrawingState :=
  {| shapes := shapes st; paletteColors := paletteColors st;
     shapeIdCounter := shapeIdCounter st; activeTool := activeTool st;
     currentColor := currentColor st; currentDrawing := currentDrawing st;
     selection := selection st; undoStack := u; redoStack := r;
     snapPoint := snapPoint st |}.

Definition setSnapPoint (v : option Point) (st : DrawingState) : DrawingState :=
  {| shapes := shapes st; paletteColors := paletteColors st;
     shapeIdCounter := shapeIdCounter st; activeTool := activeTool st;
     currentColor := currentColor st; currentDrawing := currentDrawing st;
     selection := selection st; undoStack := undoStack st;
     redoStack := redoStack st; snapPoint := v |}.


Definition noDrawing : CurrentDrawing := mkDrawing false [].
Definition noSelection : Selection := mkSelection None None false None.

(** The state the store is created with. *)
Definition initialState : DrawingState :=
  {| shapes := [];
     paletteColors :=
       ["#000000"; "#FF0000"; "#00FF00"; "#0000FF"; "#FFFF00"; "#FF00FF";
        "#00FFFF"]%string;
     shapeIdCounter := 0; activeTool := draw; currentColor := "#000000";
     currentDrawing := noDrawing; selection := noSelection;
     undoStack := []; redoStack := []; snapPoint := None |}.

Definition hasId (i : nat) (s : Shape) : bool := (id s =? i)%nat.

(** *** Actions *)

Definition setActiveTool (tool : ToolName) (st : DrawingState) : DrawingState :=
  setSelection noSelection (setTool tool st).

Definition setCurrentColor (c : string) (st : DrawingState) : DrawingState :=
  {| shapes := shapes st; paletteColors := paletteColors st;
     shapeIdCounter := shapeIdCounter st; activeTool := activeTool st;
     currentColor := c; currentDrawing := currentDrawing st;
     selection := selection st; undoStack := undoStack st;
     redoStack := redoStack st; snapPoint := snapPoint st |}.

Definition addPaletteColor (c : string) (st : DrawingState) : DrawingState :=
  setPalette (touchPalette c (paletteColors st)) st.

Definition startDrawing (point : Point) (st : DrawingState) : DrawingState :=
  setTool draw (setCurrentDrawing (mkDrawing true [point]) st).

(** [None] where the source throws (no last point to compare with). *)
Definition addDrawingPoint (point : Point) (st : DrawingState)
    : option DrawingState :=
  if negb (isDrawing (currentDrawing st)) then Some st
  else
    lastPoint ← last (drawingPoints (currentDrawing st));
    if (x point !=? x lastPoint)%js || (y point !=? y lastPoint)%js
    then Some (setCurrentDrawing
                 (mkDrawing (isDrawing (currentDrawing st))
                    (drawingPoints (currentDrawing st) ++ [point])) st)
    else Some st.

Definition finishDrawing (st : DrawingState) : DrawingState :=
  if negb (isDrawing (currentDrawing st))
     || (length (drawingPoints (currentDrawing st)) <? 2)%nat
  then setCurrentDrawing noDrawing st
  else
    let newId := shapeIdCounter st + 1 in
    let newShape :=
      mkShape newId (drawingPoints (currentDrawing st)) (currentColor st) in
    let undoAction := DELETE_SHAPE newId in
    addPaletteColor (currentColor st)
      (setStacks (undoStack st ++ [undoAction]) []
         (setCurrentDrawing noDrawing
            (setCounter newId (setShapes (shapes st ++ [newShape]) st)))).

Definition cancelDrawing (st : DrawingState) : DrawingState :=
  setCurrentDrawing noDrawing st.

Definition deleteShape (shapeId : nat) (st : DrawingState) : DrawingState :=
  match find (hasId shapeId) (shapes st) with
  | None => st
  | Some shapeToDelete =>
      let undoAction := ADD_SHAPE shapeToDelete in
      setStacks (undoStack st ++ [undoAction]) []
        (setShapes (filter (fun s => id s ≠ shapeId) (shapes st)) st)
  end.

Definition fillShape (shapeId : nat) (newColor : string) (st : DrawingState)
    : DrawingState :=
  match find (hasId shapeId) (shapes st) with
  | None => st
  | Some shapeToFill =>
      if String.eqb (color shapeToFill) newColor then st
      else
        let oldColor := color shapeToFill in
        let undoAction := FILL_SHAPE shapeId oldColor in
        addPaletteColor newColor
          (setStacks (undoStack st ++ [undoAction]) []
             (setShapes
                ((fun s => if hasId shapeId s then setColor newColor s else s)
                   <$> shapes st) st))
  end.

Definition startDraggingPoint (i j : nat) (startPoint : Point)
    (st : DrawingState) : DrawingState :=
  setSelection (mkSelection (Some i) (Some j) true (Some startPoint)) st.

(** [l[j] = a], see [Script.assign]. *)
Definition assign {A} (j : nat) (a : A) (l : list A) : option (list A) :=
  if (j <? length l)%nat then Some (<[j := a]> l)
  else if (j =? length l)%nat then Some (l ++ [a])
  else None.

(** [None] where the source throws a TypeError (no shape at the selected
    index) or leaves a sparse array. *)
Definition dragPoint (newPoint : Point) (st : DrawingState)
    : option DrawingState :=
  if negb (isDragging (selection st)) then Some st
  else
    i ← shapeIndex (selection st);
    shape ← shapes st !! i;
    j ← pointIndex (selection st);
    pts ← assign j newPoint (points shape);
    Some (setShapes (<[i := mkShape (id shape) pts (color shape)]> (shapes st)) st).

Definition finishDraggingPoint (st : DrawingState) : option DrawingState :=
  match isDragging (selection st), dragStartPoint (selection st) with
  | true, Some start =>
      i ← shapeIndex (selection st);
      shape ← shapes st !! i;
      j ← pointIndex (selection st);
      finalPoint ← points shape !! j;
      let st1 :=
        if (x start !=? x finalPoint)%js || (y start !=? y finalPoint)%js
        then setStacks (undoStack st ++ [EDIT_SHAPE_POINT i j start]) [] st
        else st in
      Some (setSelection noSelection st1)
  | _, _ => Some st
  end.

Definition clearCanvas (st : DrawingState) : DrawingState :=
  match shapes st with
  | [] => st
  | _ :: _ =>
      let undoAction := IMPORT_SHAPES (shapes st) in
      setStacks (undoStack st ++ [undoAction]) []
        (setCurrentDrawing noDrawing (setShapes [] st))
  end.

(** [importedShapes.map(shape => ({ ...shape, id: ++shapeIdCounter }))]. *)
Fixpoint withIds (counter : nat) (importedShapes : list (list Point * string))
    : list Shape * nat :=
  match importedShapes with
  | [] => ([], counter)
  | (pts, c) :: rest =>
      let '(l, n) := withIds (counter + 1) rest in
      (mkShape (counter + 1) pts c :: l, n)
  end.

Definition importShapes (importedShapes : list (list Point * string))
    (st : DrawingState) : DrawingState :=
  let '(shapesWithIds, counter) := withIds (shapeIdCounter st) importedShapes in
  let undoAction := DELETE_MULTIPLE_SHAPES (id <$> shapesWithIds) in
  foldl (fun st' s => addPaletteColor (color s) st')
    (setStacks (undoStack st ++ [undoAction]) []
       (setCounter counter (setShapes (shapes st ++ shapesWithIds) st)))
    shapesWithIds.

(** *** Undo and redo *)

Definition includes (shapeIds : list nat) (s : Shape) : bool :=
  existsb (Nat.eqb (id s)) shapeIds.

(** The [switch] that [undo] and [redo] share: the shapes and palette
    after [lastAction], and the entry that replaces it on the other
    stack.  [None] where the source throws ([deepCopy] of a point that
    is not there). *)
Definition applyAction (lastAction : UndoAction) (st : DrawingState)
    : option (list Shape * list string * UndoAction) :=
  match lastAction with
  | DELETE_SHAPE shapeId =>
      match find (hasId shapeId) (shapes st) with
      | Some shapeToRestore =>
          Some (filter (fun s => id s ≠ shapeId) (shapes st),
                paletteColors st, ADD_SHAPE shapeToRestore)
      | None => Some (shapes st, paletteColors st, lastAction)
      end
  | ADD_SHAPE shape =>
      Some (shapes st ++ [shape],
            touchPalette (color shape) (paletteColors st),
            lastAction)
  | FILL_SHAPE shapeId c =>
      match find (hasId shapeId) (shapes st), findIndex (hasId shapeId) (shapes st) with
      | Some shapeToUpdate, Some index =>
          Some (alter (setColor c) index (shapes st), paletteColors st,
                FILL_SHAPE shapeId (color shapeToUpdate))
      | _, _ => Some (shapes st, paletteColors st, lastAction)
      end
  | EDIT_SHAPE_POINT i j point =>
      match shapes st !! i with
      | Some shapeToUpdate =>
          oldPoint ← points shapeToUpdate !! j;
          Some (alter (setPoint j point) i (shapes st), paletteColors st,
                EDIT_SHAPE_POINT i j oldPoint)
      | None => Some (shapes st, paletteColors st, lastAction)
      end
  | IMPORT_SHAPES shapesToRestore =>
      Some (shapes st ++ shapesToRestore,
            foldl (fun pal s => touchPalette (color s) pal)
              (paletteColors st) shapesToRestore,
            DELETE_MULTIPLE_SHAPES (id <$> shapesToRestore))
  | DELETE_MULTIPLE_SHAPES shapeIds =>
      let shapesToRestore := filter (fun s => includes shapeIds s) (shapes st) in
      Some (filter (fun s => ¬ includes shapeIds s) (shapes st),
            paletteColors st, IMPORT_SHAPES shapesToRestore)
  end.

Definition undo (st : DrawingState) : option DrawingState :=
  match pop (undoStack st) with
  | None => Some st
  | Some (lastAction, newUndoStack) =>
      '(newShapes, palette, inverse) ← applyAction lastAction st;
      Some (setStacks newUndoStack (redoStack st ++ [inverse])
              (setPalette palette (setShapes newShapes st)))
  end.

Definition redo (st : DrawingState) : option DrawingState :=
  match pop (redoStack st) with
  | None => Some st
  | Some (lastAction, newRedoStack) =>
      '(newShapes, palette, inverse) ← applyAction lastAction st;
      Some (setStacks (undoStack st ++ [inverse]) newRedoStack
              (setPalette palette (setShapes newShapes st)))
  end.

End Store.

Arguments initialState {num}.

End Store.

(** ** [CanvasEngine]: the mouse-down handler over the store *)

Module Engine.
Section Engine.
Context {num : Type} `{JSNumber num}.
Variables isoWidth isoHeight : num.

Import Store.

(** [handleMouseDown(e)]; [None] where the source throws. *)
Definition handleMouseDown (button : nat) (canvasX canvasY : num)
    (st : DrawingState) : option DrawingState :=
  if negb (button =? 0)%nat then Some st
  else
    match activeTool st with
    | draw =>
        let clickedScreenPos := snap isoWidth isoHeight canvasX canvasY in
        if negb (isDrawing (currentDrawing st))
        then Some (startDrawing clickedScreenPos st)
        else
          startPoint ← head (drawingPoints (currentDrawing st));
          if isClosing clickedScreenPos startPoint
               (drawingPoints (currentDrawing st))
          then Some (finishDrawing st)
          else addDrawingPoint clickedScreenPos st
    | fill =>
        match hitScan canvasX canvasY (shapes st) with
        | Some i =>
            match shapes st !! i with
            | Some shape => Some (fillShape (id shape) (currentColor st) st)
            | None => Some st
            end
        | None => Some st
        end
    | delete_ =>
        match hitScan canvasX canvasY (shapes st) with
        | Some i =>
            match shapes st !! i with
            | Some shape => Some (deleteShape (id shape) st)
            | None => Some st
            end
        | None => Some st
        end
    | edit =>
        match editScan canvasX canvasY (shapes st) (length (shapes st)) with
        | Some (i, j) =>
            match shapes st !! i ≫= (fun shape => points shape !! j) with
            | Some point => Some (startDraggingPoint i j point st)
            | None => Some st
            end
        | None => Some st
        end
    end.

(** [handleMouseMove(e)]: a drag in progress moves the selected point to
    the snapped position; otherwise the snap point follows the mouse in
    draw mode and is cleared in the other modes. *)
Definition handleMouseMove (canvasX canvasY : num) (st : DrawingState)
    : option DrawingState :=
  match activeTool st, isDragging (selection st) with
  | edit, true => dragPoint (snap isoWidth isoHeight canvasX canvasY) st
  | draw, _ =>
      Some (setSnapPoint (Some (snap isoWidth isoHeight canvasX canvasY)) st)
  | _, _ => Some (setSnapPoint None st)
  end.

(** [handleMouseUp(e)] for [e.button = button]. *)
Definition handleMouseUp (button : nat) (st : @DrawingState num)
    : option (@DrawingState num) :=
  if negb (button =? 0)%nat then Some st
  else
    match activeTool st, isDragging (selection st) with
    | edit, true => finishDraggingPoint st
    | _, _ => Some st
    end.

(** [handleMouseOut()]. *)
Definition handleMouseOut (st : @DrawingState num)
    : option (@DrawingState num) :=
  match activeTool st, isDragging (selection st) with
  | edit, true => finishDraggingPoint st
  | _, _ => Some st
  end.

(** [handleKeyDown(e)], see [Script.handleKeyDown]: here Escape outside
    a drawing always selects the draw tool. *)
Definition handleKeyDown (ctrlKey metaKey shiftKey : bool) (key : string)
    (st : @DrawingState num) : option (@DrawingState num) :=
  if (ctrlKey || metaKey) && (String.eqb key "z" || String.eqb key "Z")
  then if shiftKey then redo st else undo st
  else if String.eqb key "Escape" then
    if isDrawing (currentDrawing st) then Some (cancelDrawing st)
    else Some (setActiveTool draw st)
  else Some st.

(** The [onload] callback of [importFromSVG]. *)
Variable parseFloat : string -> num.
Variable parseFromString : string -> SVGDocument.

Definition importFromSVG (svgContent : string) (st : @DrawingState num)
    : @DrawingState num :=
  match parseSVGContent_engine isoWidth isoHeight parseFloat parseFromString
          svgContent with
  | [] => st
  | parsedShapes => importShapes parsedShapes st
  end.

(** The events of the React port: the listeners of [CanvasEngine], the
    buttons of [Toolbar] and the colour input and swatches of
    [ColorPalette]. *)
Inductive Event :=
| MouseDown (button : nat) (canvasX canvasY : num)
| MouseMove (canvasX canvasY : num)
| MouseUp (button : nat)
| MouseOut
| KeyDown (ctrlKey metaKey shiftKey : bool) (key : string)
| ToolButton (tool : ToolName)
| ColorChange (c : string)
| ClearButton
| UndoButton
| RedoButton
| FileLoaded (svgContent : string).

Definition handle (ev : Event) (st : @DrawingState num)
    : option (@DrawingState num) :=
  match ev with
  | MouseDown button canvasX canvasY => handleMouseDown button canvasX canvasY st
  | MouseMove canvasX canvasY => handleMouseMove canvasX canvasY st
  | MouseUp button => handleMouseUp button st
  | MouseOut => handleMouseOut st
  | KeyDown ctrlKey metaKey shiftKey key =>
      handleKeyDown ctrlKey metaKey shiftKey key st
  | ToolButton tool => Some (setActiveTool tool st)
  | ColorChange c => Some (setCurrentColor c st)
  | ClearButton => Some (clearCanvas st)
  | UndoButton => undo st
  | RedoButton => redo st
  | FileLoaded svgContent => Some (importFromSVG svgContent st)
  end.

Definition run (evs : list Event) (st : @DrawingState num)
    : option (@DrawingState num) :=
  foldl (fun st' ev => st' ≫= handle ev) (Some st) evs.

End Engine.
End Engine.

(** * Properties *)

(** ** Array helpers *)

Section ArrayFacts.
Context {A : Type}.
Implicit Types (l : list A) (f : A -> bool).

Lemma pop_app l a : pop (l ++ [a]) = Some (a, l).
Proof.
  unfold pop. rewrite last_snoc. by rewrite removelast_last.
Qed.

Lemma pop_nil : pop (@nil A) = None.
Proof. reflexivity. Qed.

Lemma pop_Some l a rest : pop l = Some (a, rest) -> l = rest ++ [a].
Proof.
  destruct l as [|b l] using rev_ind; [done|].
  rewrite pop_app. by intros [= -> ->].
Qed.

Lemma pop_None l : pop l = None -> l = [].
Proof.
  destruct l as [|b l] using rev_ind; [done|]. by rewrite pop_app.
Qed.

(** What the downward loop returns, scanning from any bound [n]. *)
Lemma scanDown_Some f l n i :
  scanDown f l n = Some i <->
  i < n /\ (exists a, l !! i = Some a /\ f a = true) /\
  (forall k a, i < k < n -> l !! k = Some a -> f a = false).
Proof.
  induction n as [|n IH]; simpl.
  - split; [done | intros [? _]; lia].
  - destruct (l !! n) as [a|] eqn:Hn; [destruct (f a) eqn:Hf|].
    + split.
      * intros [= <-]. split; [lia|]. split; [eauto|]. intros; lia.
      * intros (Hi & (b & Hb & Hfb) & Hk).
        destruct (decide (i = n)) as [->|]; [done|].
        assert (f a = false) by (apply (Hk n); [lia | done]). congruence.
    + rewrite IH. split.
      * intros (Hi & Ha & Hk). split; [lia|]. split; [done|].
        intros k b Hkn Hb. destruct (decide (k = n)) as [->|].
        -- congruence.
        -- apply (Hk k); [lia | done].
      * intros (Hi & (b & Hb & Hfb) & Hk).
        assert (i <> n) by (intros ->; congruence).
        split; [lia|]. split; [eauto|]. intros k c Hkn. apply Hk. lia.
    + rewrite IH. split.
      * intros (Hi & Ha & Hk). split; [lia|]. split; [done|].
        intros k b Hkn Hb. destruct (decide (k = n)) as [->|].
        -- congruence.
        -- apply (Hk k); [lia | done].
      * intros (Hi & (b & Hb & Hfb) & Hk).
        assert (i <> n) by (intros ->; congruence).
        split; [lia|]. split; [eauto|]. intros k c Hkn. apply Hk. lia.
Qed.

Lemma scanDown_None f l n :
  scanDown f l n = None <->
  (forall k a, k < n -> l !! k = Some a -> f a = false).
Proof.
  induction n as [|n IH]; simpl.
  - split; [intros; lia | done].
  - destruct (l !! n) as [a|] eqn:Hn; [destruct (f a) eqn:Hf|].
    + split; [done|]. intros Hk. specialize (Hk n a). rewrite Hk in Hf; [done|lia|done].
    + rewrite IH. split.
      * intros Hk k b Hkn Hb. destruct (decide (k = n)) as [->|].
        -- congruence.
        -- apply (Hk k); [lia | done].
      * intros Hk k b Hkn. apply Hk. lia.
    + rewrite IH. split.
      * intros Hk k b Hkn Hb. destruct (decide (k = n)) as [->|].
        -- congruence.
        -- apply (Hk k); [lia | done].
      * intros Hk k b Hkn. apply Hk. lia.
Qed.

Lemma findIndex_Some f l i :
  findIndex f l = Some i <->
  (exists a, l !! i = Some a /\ f a = true) /\
  (forall k a, k < i -> l !! k = Some a -> f a = false).
Proof.
  revert i. induction l as [|b l IH]; intros i; simpl.
  - split; [done|]. by intros [(a & Ha & _) _].
  - destruct (f b) eqn:Hb.
    + split.
      * intros [= <-]. split; [eauto|]. intros; lia.
      * intros [(a & Ha & Hfa) Hk]. destruct i as [|i]; [done|].
        specialize (Hk 0 b). rewrite Hk in Hb; [done | lia | done].
    + destruct i as [|i].
      * split.
        -- by destruct (findIndex f l).
        -- intros [(a & [= <-] & Hfa) _]. congruence.
      * transitivity (findIndex f l = Some i).
        { destruct (findIndex f l); simpl; split; congruence. }
        rewrite IH. simpl. split.
        -- intros [Ha Hk]. split; [done|].
           intros [|k] a Hlt; simpl; [congruence|]. apply Hk. lia.
        -- intros [Ha Hk]. split; [done|].
           intros k a Hlt. apply (Hk (S k)). lia.
Qed.




End ArrayFacts.

(** ** CoordinateTransform on binary64 *)

Module Float64Facts.
Import Float64.
Local Open Scope Z_scope.









End Float64Facts.

(** ** binary64 is an ordered number type *)

Module Float64Laws.
Import Float64.
Local Open Scope Z_scope.

Lemma SFcompare_finite_Eq s1 m1 e1 s2 m2 e2 :
  SFcompare (S754_finite s1 m1 e1) (S754_finite s2 m2 e2) = Some Eq ->
  s1 = s2 /\ m1 = m2 /\ e1 = e2.
Proof.
  simpl. destruct s1, s2; try discriminate;
    destruct (Z.compare_spec e1 e2) as [->| |]; try discriminate;
    destruct (Pos.compare_cont Eq m1 m2) eqn:Hm; try discriminate;
    intros _; apply Pos.compare_eq in Hm; subst; auto.
Qed.

Lemma SFeqb_ltb_compat (A B C : spec_float) :
  SFeqb A B = true -> SFltb C A = SFltb C B.
Proof.
  unfold SFeqb, SFltb. destruct (SFcompare A B) as [[| |]|] eqn:Hab; try discriminate.
  intros _.
  destruct A as [sa|sa| |sa ma ea], B as [sb|sb| |sb mb eb]; try discriminate;
    try (simpl in Hab; destruct sa; discriminate);
    try (simpl in Hab; destruct sb; discriminate).
  - destruct C; reflexivity.
  - destruct sa, sb; try discriminate; reflexivity.
  - apply SFcompare_finite_Eq in Hab as (-> & -> & ->). reflexivity.
Qed.

Lemma SFeqb_zero_r (A : spec_float) s :
  SFeqb A (S754_zero s) = true -> exists s', A = S754_zero s'.
Proof.
  unfold SFeqb. destruct A as [sa|sa| |sa ma ea]; simpl; try discriminate.
  - eauto.
  - destruct sa; discriminate.
  - destruct sa; discriminate.
Qed.

(** Shifting a mantissa to the right, as rounding does. *)
Lemma shr_1_m mrs : 0 <= shr_m mrs -> shr_m (shr_1 mrs) = Z.div2 (shr_m mrs).
Proof.
  destruct mrs as [[|[p|p|]|p] r s]; simpl; try reflexivity; lia.
Qed.

Lemma iter_shr_m p : forall mrs,
  0 <= shr_m mrs ->
  shr_m (SpecFloat.iter_pos shr_1 p mrs) = Z.shiftr (shr_m mrs) (Zpos p).
Proof.
  induction p as [p IH|p IH|]; intros mrs Hm; simpl SpecFloat.iter_pos.
  - assert (0 <= shr_m (shr_1 mrs)) as H1.
    { rewrite shr_1_m by assumption. apply Z.div2_nonneg. assumption. }
    assert (0 <= shr_m (SpecFloat.iter_pos shr_1 p (shr_1 mrs))) as H2.
    { rewrite IH by assumption. apply Z.shiftr_nonneg. assumption. }
    rewrite IH, IH by assumption. rewrite shr_1_m by assumption.
    rewrite Z.div2_spec, !Z.shiftr_shiftr by lia. f_equal. lia.
  - assert (0 <= shr_m (SpecFloat.iter_pos shr_1 p mrs)) as H2.
    { rewrite IH by assumption. apply Z.shiftr_nonneg. assumption. }
    rewrite IH, IH by assumption.
    rewrite !Z.shiftr_shiftr by lia. f_equal. lia.
  - rewrite shr_1_m by assumption. apply Z.div2_spec.
Qed.

Lemma digits2_size m : digits2_pos m = Pos.size m.
Proof. induction m; simpl; congruence. Qed.

Lemma digits2_bounds m :
  2 ^ (Zpos (digits2_pos m) - 1) <= Zpos m < 2 ^ Zpos (digits2_pos m).
Proof.
  rewrite digits2_size. split.
  - pose proof (Pos.size_le m) as H.
    assert (2 ^ Zpos (Pos.size m) <= 2 * Zpos m) as H'.
    { change 2 with (Zpos 2). rewrite <- Pos2Z.inj_pow, <- Pos2Z.inj_mul.
      apply Pos2Z.pos_le_pos. exact H. }
    replace (Zpos (Pos.size m)) with (Z.succ (Zpos (Pos.size m) - 1)) in H' by lia.
    rewrite Z.pow_succ_r in H' by lia. lia.
  - pose proof (Pos.size_gt m) as H.
    change 2 with (Zpos 2). rewrite <- Pos2Z.inj_pow. apply Pos2Z.pos_lt_pos. exact H.
Qed.

Lemma shr_record_of_loc_m m l : shr_m (shr_record_of_loc m l) = m.
Proof. destruct l as [|[| |]]; reflexivity. Qed.

Lemma fexp_ge_emin e : SpecFloat.emin prec emax <= fexp prec emax e.
Proof. unfold fexp. apply Z.le_max_r. Qed.

Lemma shr_fexp_pos m e l :
  SpecFloat.emin prec emax <= e ->
  0 < shr_m (fst (shr_fexp prec emax (Zpos m) e l))
  /\ SpecFloat.emin prec emax <= snd (shr_fexp prec emax (Zpos m) e l).
Proof.
  intros He. unfold shr_fexp, shr. simpl Zdigits2.
  pose proof (digits2_bounds m) as [Hlo Hhi].
  set (d := Zpos (digits2_pos m)) in *.
  assert (0 < d) as Hd by (unfold d; lia).
  destruct (fexp prec emax (d + e) - e) as [|p|p] eqn:Hn; simpl.
  - rewrite shr_record_of_loc_m. lia.
  - rewrite iter_shr_m by (rewrite shr_record_of_loc_m; lia).
    rewrite shr_record_of_loc_m.
    assert (Zpos p <= d - 1) as Hp.
    { unfold fexp, SpecFloat.emin, prec, emax in *. lia. }
    split.
    + rewrite Z.shiftr_div_pow2 by lia.
      apply Z.div_str_pos. split; [apply Z.pow_pos_nonneg; lia|].
      apply Z.le_trans with (2 ^ (d - 1)); [|assumption].
      apply Z.pow_le_mono_r; lia.
    + lia.
  - rewrite shr_record_of_loc_m. lia.
Qed.

Lemma round_nearest_even_pos m l : 0 < m -> 0 < round_nearest_even m l.
Proof.
  intros Hm. destruct l as [|[| |]]; simpl; try lia.
  destruct (Z.even m); lia.
Qed.

Lemma binary_round_aux_nonzero s m e l s' :
  SpecFloat.emin prec emax <= e -> binary_round_aux prec emax s (Zpos m) e l <> S754_zero s'.
Proof.
  intros He. unfold binary_round_aux.
  pose proof (shr_fexp_pos m e l He) as [Hm1 He1].
  destruct (shr_fexp prec emax (Zpos m) e l) as [mrs' e']. simpl in Hm1, He1.
  pose proof (round_nearest_even_pos (shr_m mrs') (loc_of_shr_record mrs') Hm1) as Hr.
  destruct (round_nearest_even (shr_m mrs') (loc_of_shr_record mrs')) as [|m2|m2];
    try lia.
  pose proof (shr_fexp_pos m2 e' loc_Exact He1) as [Hm2 He2].
  destruct (shr_fexp prec emax (Zpos m2) e' loc_Exact) as [mrs'' e''].
  simpl in Hm2, He2.
  destruct (shr_m mrs'') as [|m3|m3]; try lia.
  destruct (e'' <=? emax - prec); discriminate.
Qed.

Lemma binary_round_nonzero s m e s' :
  SpecFloat.emin prec emax <= e -> binary_round prec emax s m e <> S754_zero s'.
Proof.
  intros He. unfold binary_round, shl_align.
  destruct (fexp prec emax (Zpos (digits2_pos m) + e) - e) eqn:Hn;
    apply binary_round_aux_nonzero; try assumption.
  apply fexp_ge_emin.
Qed.

Lemma digits2_iter_xO d : forall m,
  Zpos (digits2_pos (Pos.iter xO m d)) = Zpos (digits2_pos m) + Zpos d.
Proof.
  induction d as [|d IH] using Pos.peano_ind; intros m.
  - simpl. lia.
  - rewrite Pos.iter_succ. simpl digits2_pos. rewrite Pos2Z.inj_succ, IH. lia.
Qed.

Lemma iter_xO_inj d : forall m m', Pos.iter xO m d = Pos.iter xO m' d -> m = m'.
Proof.
  induction d as [|d IH] using Pos.peano_ind; intros m m'.
  - simpl. congruence.
  - rewrite !Pos.iter_succ. intros [=]. auto.
Qed.

(** Two canonical mantissas that agree once aligned are the same. *)
Lemma aligned_canonical mx ex my ey :
  canonical_mantissa prec emax mx ex = true ->
  canonical_mantissa prec emax my ey = true ->
  fst (shl_align mx ex (Z.min ex ey)) = fst (shl_align my ey (Z.min ex ey)) ->
  mx = my /\ ex = ey.
Proof.
  unfold canonical_mantissa, shl_align. intros Hx%Z.eqb_eq Hy%Z.eqb_eq.
  destruct (Z.min ex ey - ex) as [|p|p] eqn:Hdx;
    destruct (Z.min ex ey - ey) as [|q|q] eqn:Hdy; simpl; try lia.
  - intros Hm. subst mx. rewrite digits2_iter_xO in Hx.
    replace (Zpos (digits2_pos my) + Zpos q + ex)
      with (Zpos (digits2_pos my) + ey) in Hx by lia. lia.
  - intros Hm. subst my. rewrite digits2_iter_xO in Hy.
    replace (Zpos (digits2_pos mx) + Zpos p + ey)
      with (Zpos (digits2_pos mx) + ex) in Hy by lia. lia.
Qed.

Lemma SFsub_zero (A B : spec_float) s :
  SpecFloat.valid_binary prec emax A = true -> SpecFloat.valid_binary prec emax B = true ->
  SFsub prec emax B A = S754_zero s -> SFeqb A B = true.
Proof.
  intros HA HB.
  destruct A as [sa|sa| |sa ma ea], B as [sb|sb| |sb mb eb]; simpl SFsub;
    try discriminate; try (destruct sa, sb; discriminate);
    try (destruct sa; discriminate); try (destruct sb; discriminate).
  - reflexivity.
  - simpl in HA, HB. unfold bounded in HA, HB.
    apply andb_prop in HA as [HA _], HB as [HB _].
    assert (SpecFloat.emin prec emax <= Z.min eb ea) as Hmin.
    { unfold canonical_mantissa in HA, HB.
      apply Z.eqb_eq in HA, HB.
      pose proof (fexp_ge_emin (Zpos (digits2_pos ma) + ea)).
      pose proof (fexp_ge_emin (Zpos (digits2_pos mb) + eb)). lia. }
    unfold binary_normalize.
    destruct (cond_Zopp sb (Zpos (fst (shl_align mb eb (Z.min eb ea)))) -
              cond_Zopp sa (Zpos (fst (shl_align ma ea (Z.min eb ea))))) eqn:Hd.
    + intros _.
      assert (sa = sb /\ fst (shl_align mb eb (Z.min eb ea)) =
                          fst (shl_align ma ea (Z.min eb ea))) as [-> Hm].
      { revert Hd. generalize (fst (shl_align mb eb (Z.min eb ea))).
        generalize (fst (shl_align ma ea (Z.min eb ea))).
        intros p q. unfold cond_Zopp. destruct sa, sb; lia. }
      apply aligned_canonical in Hm as [-> ->]; try assumption.
      unfold SFeqb. simpl. rewrite Z.compare_refl, Pos.compare_cont_refl.
      destruct sb; reflexivity.
    + intros Hr. exfalso. revert Hr. apply binary_round_nonzero. assumption.
    + intros Hr. exfalso. revert Hr. apply binary_round_nonzero. assumption.
Qed.

(** binary64 satisfies both laws: [===] compares what [>] compares, and
    a difference is [+0] or [-0] only between numbers that are [===]
    (gradual underflow: the difference of two distinct numbers is never
    rounded to zero). *)
#[global] Instance float_OrderedNumber : OrderedNumber float.
Proof.
  split.
  - intros a b c. simpl.
    rewrite FloatAxioms.eqb_spec, !FloatAxioms.ltb_spec.
    apply SFeqb_ltb_compat.
  - intros a b. simpl. rewrite !FloatAxioms.eqb_spec, FloatAxioms.sub_spec.
    change (Prim2SF (int 0)) with (S754_zero false).
    intros [s Hs]%SFeqb_zero_r.
    apply (SFsub_zero _ _ s); try apply Prim2SF_valid. exact Hs.
Qed.

End Float64Laws.

(** ** Exact rational arithmetic is an ordered number type *)

Module RationalFacts.
Import Rational.

#[global] Instance Q_OrderedNumber : OrderedNumber Q.
Proof.
  split.
  - intros a b c Hab. simpl. apply Qeq_bool_iff in Hab.
    f_equal. apply eq_true_iff_eq. rewrite !Qle_bool_iff. by rewrite Hab.
  - intros a b Hab. simpl in *. apply Qeq_bool_iff in Hab. apply Qeq_bool_iff.
    unfold int in Hab. simpl in Hab. change (inject_Z 0) with 0%Q in Hab. lra.
Qed.

Lemma eqb_comm (a b : bool) : eqb a b = eqb b a.
Proof. destruct a, b; reflexivity. Qed.

(** In exact arithmetic a list of two points contains no point: the loop
    meets the one segment twice, once in each direction, and both turns
    compute the same crossing. *)
Lemma two_points_never_inside_exact (p a b : Point Q) :
  isPointInPolygon p [a; b] = false.
Proof.
  unfold isPointInPolygon. simpl.
  assert (intersect p b a = intersect p a b) as ->.
  { unfold intersect. simpl.
    rewrite (eqb_comm (negb (Qle_bool (y b) (y p)))).
    destruct (eqb _ _) eqn:Hs; simpl; [reflexivity|].
    f_equal. apply eq_true_iff_eq. rewrite !Qle_bool_iff.
    assert (~ y a == y b) as Hne.
    { intros Heq. apply eqb_false_iff in Hs. apply Hs.
      f_equal. apply eq_true_iff_eq. rewrite !Qle_bool_iff, Heq. tauto. }
    assert ((x a - x b) * (y p - y b) / (y a - y b) + x b ==
            (x b - x a) * (y p - y a) / (y b - y a) + x a) as ->.
    { field. split; intros Hz; apply Hne; lra. }
    tauto. }
  destruct (intersect p a b); reflexivity.
Qed.

End RationalFacts.

(** ** HitTester *)

Section HitTesterFacts.
Context {num : Type} `{OrderedNumber num}.

(** An edge whose end points have the same height is never crossed. *)
Lemma intersect_horizontal (point pi pj : Point num) :
  neq (y pi) (y pj) = true -> intersect point pi pj = false.
Proof.
  intros Heq. unfold intersect.
  rewrite (ngt_eq _ _ (y point) Heq). by rewrite eqb_reflx.
Qed.

Lemma intersect_checked_total (point pi pj : Point num) :
  intersect_checked point pi pj = Some (intersect point pi pj).
Proof.
  unfold intersect_checked, intersect, checked_div.
  destruct (eqb (nlt (y point) (y pi)) (nlt (y point) (y pj))) eqn:Hstraddle;
    simpl; [done|].
  destruct (neq (nsub (y pj) (y pi)) (int 0)) eqn:Hzero; [|done].
  apply nsub_eq_0 in Hzero.
  rewrite (ngt_eq _ _ (y point) Hzero), eqb_reflx in Hstraddle. done.
Qed.

Lemma crossings_checked_total (point pj : Point num) rest inside :
  crossings_checked point pj rest inside = Some (crossings point pj rest inside).
Proof.
  revert pj inside. induction rest as [|pi rest IH]; intros pj inside; simpl.
  - done.
  - rewrite intersect_checked_total. apply IH.
Qed.

(** C8: [isPointInPolygon] returns a boolean for every point and every
    point list, no division it evaluates has a zero divisor (the
    checked loop never stops on one and agrees with the plain loop),
    and an edge with [yi == yj] registers no crossing.  The number type
    is any one on which [===] is a congruence for [>] and a difference
    is zero only between equal numbers: binary64
    ([Float64Laws.float_OrderedNumber]) and the exact rationals are. *)
Theorem C8_pointInPolygon_total_no_zero_division
    (point : Point num) (polygon : list (Point num)) :
  isPointInPolygon_checked point polygon
    = Some (isPointInPolygon point polygon)
  /\ (forall pi pj : Point num,
        neq (y pi) (y pj) = true -> intersect point pi pj = false).
Proof.
  split.
  - unfold isPointInPolygon_checked, isPointInPolygon.
    destruct (last polygon); [apply crossings_checked_total | done].
  - intros pi pj. apply intersect_horizontal.
Qed.

End HitTesterFacts.

(** C8 in binary64, on a square with two horizontal edges, queried at
    the height of the lower one. *)
Lemma C8_pointInPolygon_witness :
  let square := [mkPoint 0 0; mkPoint 4 0; mkPoint 4 4; mkPoint 0 4]%float in
  isPointInPolygon_checked (mkPoint 2 0)%float square
    = Some (isPointInPolygon (mkPoint 2 0)%float square)
  /\ (forall pi pj : Point float,
        neq (y pi) (y pj) = true
        -> intersect (mkPoint 2 0)%float pi pj = false).
Proof.
  apply C8_pointInPolygon_total_no_zero_division.
Defined.

(** ** Topmost hit testing *)

Section PickingFacts.
Context {num : Type} `{JSNumber num}.

Lemma editScan_Some (canvasX canvasY : num) (l : list (Shape num)) n i j :
  editScan canvasX canvasY l n = Some (i, j) <->
  i < n
  /\ (exists s, l !! i = Some s
               /\ findIndex (near canvasX canvasY) (points s) = Some j)
  /\ (forall k s, i < k < n -> l !! k = Some s ->
        findIndex (near canvasX canvasY) (points s) = None).
Proof.
  induction n as [|n IH]; simpl.
  - split; [done | intros [? _]; lia].
  - destruct (l !! n) as [s|] eqn:Hn;
      [destruct (findIndex (near canvasX canvasY) (points s)) as [j'|] eqn:Hj|].
    + split.
      * intros [= <- <-]. split; [lia|]. split; [eauto|]. intros; lia.
      * intros (Hi & (s' & Hs' & Hj') & Hk).
        destruct (decide (i = n)) as [->|]; [congruence|].
        assert (findIndex (near canvasX canvasY) (points s) = None)
          by (apply (Hk n); [lia | done]).
        congruence.
    + rewrite IH. split.
      * intros (Hi & Hs & Hk). split; [lia|]. split; [done|].
        intros k s' Hkn Hs'. destruct (decide (k = n)) as [->|].
        -- congruence.
        -- apply (Hk k); [lia | done].
      * intros (Hi & (s' & Hs' & Hj') & Hk).
        assert (i <> n) by (intros ->; congruence).
        split; [lia|]. split; [eauto|]. intros k s'' Hkn. apply Hk. lia.
    + rewrite IH. split.
      * intros (Hi & Hs & Hk). split; [lia|]. split; [done|].
        intros k s' Hkn Hs'. destruct (decide (k = n)) as [->|].
        -- congruence.
        -- apply (Hk k); [lia | done].
      * intros (Hi & (s' & Hs' & Hj') & Hk).
        assert (i <> n) by (intros ->; congruence).
        split; [lia|]. split; [eauto|]. intros k s'' Hkn. apply Hk. lia.
Qed.


End PickingFacts.

Section HandlerFacts.
Context {num : Type} `{JSNumber num}.
Variables isoWidth isoHeight : num.
Import Script.

Lemma setColor_same (s : Shape num) : setColor (color s) s = s.
Proof. by destruct s. Qed.

(** Delete mode removes the shape [hitScan] stops at. *)
Lemma handleMouseDown_delete canvasX canvasY (t : Tool) :
  isEditMode t = false -> isDeleteMode t = true ->
  shapes (handleMouseDown isoWidth isoHeight 0 canvasX canvasY t)
  = match hitScan canvasX canvasY (shapes t) with
    | Some i => delete i (shapes t)
    | None => shapes t
    end.
Proof.
  intros He Hd. unfold handleMouseDown. simpl. rewrite He, Hd.
  destruct (hitScan canvasX canvasY (shapes t)) as [i|] eqn:Hscan; [|done].
  pose proof Hscan as Hlt. unfold hitScan in Hlt.
  apply scanDown_Some in Hlt as (Hlt & (s & Hs & _) & _).
  rewrite Hs. unfold managerExecute. simpl.
  apply Nat.ltb_lt in Hlt. by rewrite Hlt.
Qed.

(** Fill mode recolours the shape [fillScan] stops at. *)
Lemma handleMouseDown_fill canvasX canvasY (t : Tool) :
  isEditMode t = false -> isDeleteMode t = false -> isFillMode t = true ->
  shapes (handleMouseDown isoWidth isoHeight 0 canvasX canvasY t)
  = match fillScan canvasX canvasY (shapes t) with
    | Some i => alter (setColor (currentColor t)) i (shapes t)
    | None => shapes t
    end.
Proof.
  intros He Hd Hf. unfold handleMouseDown. simpl. rewrite He, Hd, Hf.
  destruct (fillScan canvasX canvasY (shapes t)) as [i|] eqn:Hscan; [|done].
  pose proof Hscan as Hlt. unfold fillScan in Hlt.
  apply scanDown_Some in Hlt as (Hlt & (s & Hs & _) & _).
  rewrite Hs.
  destruct (String.eqb (color s) (currentColor t)) eqn:Hc; simpl.
  - apply String.eqb_eq in Hc. rewrite <- Hc.
    symmetry. apply list_eq. intros k.
    destruct (decide (k = i)) as [->|Hne].
    + rewrite list_lookup_alter_eq, Hs. simpl. by rewrite setColor_same.
    + by rewrite list_lookup_alter_ne.
  - unfold managerExecute. simpl. by rewrite Hs.
Qed.

(** Edit mode selects the shape and point [editScan] stops at. *)
Lemma handleMouseDown_edit canvasX canvasY (t : Tool) :
  isEditMode t = true ->
  let t' := handleMouseDown isoWidth isoHeight 0 canvasX canvasY t in
  shapes t' = shapes t
  /\ (selectedShapeIndex t', selectedPointIndex t')
     = match editScan canvasX canvasY (shapes t) (length (shapes t)) with
       | Some (i, j) => (Some i, Some j)
       | None => (None, None)
       end.
Proof.
  intros He. unfold handleMouseDown. simpl. rewrite He.
  destruct (editScan canvasX canvasY (shapes t) (length (shapes t)))
    as [[i j]|] eqn:Hscan; [|done].
  apply editScan_Some in Hscan as (_ & (s & Hs & Hj) & _).
  apply findIndex_Some in Hj as [(p & Hp & _) _].
  rewrite Hs. simpl. by rewrite Hp.
Qed.

(** C6: while drawing, a click closes the shape exactly when three points
    or more are placed and the squared distance from the snapped click
    to the first point is below [(dragPointRadius * 1.5) ** 2], with
    [dragPointRadius = 8]; the shape then added has the placed points
    and no other, and the drawing ends.  Otherwise no shape is added and
    the drawing goes on; with two points placed this is always so. *)
Theorem C6_closing_click (canvasX canvasY : num) (t : Tool)
    (startPoint : Point num) (rest : list (Point num)) :
  isEditMode t = false -> isDeleteMode t = false -> isFillMode t = false ->
  isDrawing t = true ->
  currentShapePoints t = startPoint :: rest ->
  let clicked := snap isoWidth isoHeight canvasX canvasY in
  let dx := (x clicked - x startPoint)%js in
  let dy := (y clicked - y startPoint)%js in
  let tolerance := (int 8 * nlit (3 # 2))%js in
  let closes :=
    3 <= length (currentShapePoints t)
    /\ (dx * dx + dy * dy <? tolerance * tolerance)%js = true in
  let t' := handleMouseDown isoWidth isoHeight 0 canvasX canvasY t in
  (closes ->
     shapes t'
     = shapes t
       ++ [mkShape (shapeIdCounter t + 1) (currentShapePoints t) (currentColor t)]
     /\ isDrawing t' = false /\ currentShapePoints t' = [])
  /\ (~ closes -> shapes t' = shapes t /\ isDrawing t' = true)
  /\ (length (currentShapePoints t) = 2 ->
        shapes t' = shapes t /\ isDrawing t' = true).
Proof.
  intros He Hd Hf Hdraw Hpts clicked dx dy tolerance closes t'.
  assert (isClosing clicked startPoint (currentShapePoints t) = true <-> closes)
    as Hclosing.
  { unfold isClosing, closes. rewrite andb_true_iff, Nat.leb_le.
    unfold closeToleranceSq, dragPointRadius. tauto. }
  assert (exists lastPoint, last (currentShapePoints t) = Some lastPoint)
    as [lastPoint Hlast].
  { rewrite Hpts. destruct (last (startPoint :: rest)) eqn:Hl; [eauto|].
    by apply last_None in Hl. }
  assert (~ closes -> shapes t' = shapes t /\ isDrawing t' = true) as Hopen.
  { intros Hno. subst t'. unfold handleMouseDown. simpl.
    rewrite He, Hd, Hf, Hdraw. simpl. rewrite Hlast, Hpts. simpl.
    rewrite <- Hpts. fold clicked.
    destruct (isClosing clicked startPoint (currentShapePoints t)) eqn:Hc.
    { exfalso. by apply Hno, Hclosing. }
    destruct (_ || _); simpl; by rewrite ?Hdraw. }
  split; [|split; [done|]].
  - intros Hyes. apply Hclosing in Hyes. subst t'. unfold handleMouseDown. simpl.
    rewrite He, Hd, Hf, Hdraw. simpl. rewrite Hlast, Hpts. simpl.
    rewrite <- Hpts. fold clicked. rewrite Hyes. done.
  - intros Hlen. apply Hopen. intros [Hge _]. lia.
Qed.

End HandlerFacts.

(** ** SVG import *)

Section SVGFacts.
Context {num : Type} `{JSNumber num}.
Variables isoWidth isoHeight : num.
Variable parseFloat : string -> num.
Variable parseFromString : string -> SVGDocument.






End SVGFacts.

(** ** script.js: commands and the command manager *)

Section ScriptFacts.
Context {num : Type} `{JSNumber num}.
Import Script.

Abbreviation Tool := (@Tool num).
Abbreviation Command := (@Command num).

Lemma existsb_hasId (i : nat) (l : list (Shape num)) :
  existsb (hasId i) l = true <-> i ∈ id <$> l.
Proof.
  rewrite existsb_exists, list_elem_of_fmap. unfold hasId. split.
  - intros (s & Hs & Hi). apply Nat.eqb_eq in Hi.
    exists s. split; [done|]. by apply list_elem_of_In.
  - intros (s & -> & Hs). exists s. split; [by apply list_elem_of_In|].
    by apply Nat.eqb_eq.
Qed.

(** *** The stacks belong to the manager: no command touches them. *)









(** *** [ImportShapesCommand] *)

Lemma importOne_keeps (t : Tool) s i :
  i ∈ id <$> shapes t -> i ∈ id <$> shapes (importOne t s).
Proof.
  unfold importOne. destruct (existsb _ _); [done|]. simpl.
  rewrite fmap_app. intros. apply elem_of_app. by left.
Qed.

Lemma importOne_adds (t : Tool) s : id s ∈ id <$> shapes (importOne t s).
Proof.
  unfold importOne. destruct (existsb _ _) eqn:Hex.
  - by apply existsb_hasId.
  - simpl. rewrite fmap_app. apply elem_of_app. right. by left.
Qed.

Lemma importAll_keeps (l : list (Shape num)) (t : Tool) i :
  i ∈ id <$> shapes t -> i ∈ id <$> shapes (foldl importOne t l).
Proof.
  revert t. induction l as [|s l IH]; intros t Hi; [done|]. simpl.
  by apply IH, importOne_keeps.
Qed.

Lemma importAll_adds (l : list (Shape num)) (t : Tool) s :
  s ∈ l -> id s ∈ id <$> shapes (foldl importOne t l).
Proof.
  revert t. induction l as [|s' l IH]; intros t Hs.
  - by apply elem_of_nil in Hs.
  - simpl. apply elem_of_cons in Hs as [->|Hs].
    + apply importAll_keeps, importOne_adds.
    + by apply IH.
Qed.

Lemma importAll_present (l : list (Shape num)) (t : Tool) :
  (forall s, s ∈ l -> id s ∈ id <$> shapes t) -> foldl importOne t l = t.
Proof.
  induction l as [|s l IH]; intros Hall; [done|]. simpl.
  assert (importOne t s = t) as ->.
  { unfold importOne.
    by rewrite (proj2 (existsb_hasId _ _) (Hall s ltac:(by left))). }
  apply IH. intros s' Hs'. apply Hall. by right.
Qed.

Lemma importOne_NoDup (t : Tool) s :
  NoDup (id <$> shapes t) -> NoDup (id <$> shapes (importOne t s)).
Proof.
  unfold importOne. destruct (existsb _ _) eqn:Hex; [done|]. simpl.
  intros Hnd. rewrite fmap_app. apply NoDup_app. split; [done|]. split.
  - intros i Hi Hi'. apply list_elem_of_singleton in Hi'. subst i.
    apply existsb_hasId in Hi. congruence.
  - apply NoDup_singleton.
Qed.

Lemma importAll_NoDup (l : list (Shape num)) (t : Tool) :
  NoDup (id <$> shapes t) -> NoDup (id <$> shapes (foldl importOne t l)).
Proof.
  revert t. induction l as [|s l IH]; intros t Hnd; [done|]. simpl.
  by apply IH, importOne_NoDup.
Qed.

(** C9: running [ImportShapesCommand.execute] a second time changes
    nothing (the shapes, and the rest of the tool with them, are what the
    first run left), and a run never gives two shapes the same id: if the
    ids were pairwise distinct before, they are so after. *)
Theorem C9_import_execute_idempotent (shapesToAdd : list (Shape num)) (t : Tool) :
  NoDup (id <$> shapes t) ->
  let once := (execute (ImportShapesCommand shapesToAdd) t).2 in
  let twice := (execute (ImportShapesCommand shapesToAdd) once).2 in
  twice = once
  /\ shapes twice = shapes once
  /\ NoDup (id <$> shapes once)
  /\ NoDup (id <$> shapes twice).
Proof.
  intros Hnd once twice.
  assert (twice = once) as Hsame.
  { subst twice once. simpl. apply importAll_present.
    intros s Hs. by apply importAll_adds. }
  assert (NoDup (id <$> shapes once)) by (by apply importAll_NoDup).
  rewrite Hsame. done.
Qed.

End ScriptFacts.



Section DeleteUndoFacts.
Context {num : Type} `{JSNumber num}.


Lemma find_hasId_Some (l : list (Shape num)) (i : nat) (s : Shape num) :
  find (Store.hasId i) l = Some s -> s ∈ l /\ id s = i.
Proof.
  intros Hf. apply find_some in Hf as [Hin Hid].
  split; [by apply list_elem_of_In | by apply Nat.eqb_eq].
Qed.

Lemma find_hasId_None (l : list (Shape num)) (i : nat) :
  find (Store.hasId i) l = None <-> (forall s, s ∈ l -> id s <> i).
Proof.
  split.
  - intros Hf s Hs Hid.
    pose proof (find_none _ _ Hf s (proj1 (list_elem_of_In _ _) Hs)) as Hno.
    unfold Store.hasId in Hno. apply Nat.eqb_neq in Hno. done.
  - intros Hall. destruct (find (Store.hasId i) l) as [s|] eqn:Hf; [|done].
    apply find_hasId_Some in Hf as [Hs Hid]. by destruct (Hall s Hs).
Qed.



(** C10: in the zustand store, [deleteShape(id)] and [fillShape(id, color)]
    with an id that no shape carries return the state they were given
    (shapes, undo stack, redo stack and all other fields), and so does
    [fillShape] when the shape already has the colour. *)
Theorem C10_no_match_no_change
    (st : @Store.DrawingState num) (shapeId : nat) (newColor : string) :
  ((forall s, s ∈ Store.shapes st -> id s <> shapeId) ->
   Store.deleteShape shapeId st = st
   /\ Store.fillShape shapeId newColor st = st)
  /\ (forall s,
        find (Store.hasId shapeId) (Store.shapes st) = Some s ->
        color s = newColor ->
        Store.fillShape shapeId newColor st = st).
Proof.
  split.
  - intros Hnone. apply find_hasId_None in Hnone.
    unfold Store.deleteShape, Store.fillShape. by rewrite Hnone.
  - intros s Hfind Hcolor. unfold Store.fillShape. rewrite Hfind.
    by rewrite (proj2 (String.eqb_eq _ _) Hcolor).
Qed.

(** The zustand store keeps the same stack discipline, with actions in
    place of commands: on an empty stack [undo] and [redo] return the
    state as it is; otherwise the top entry leaves its stack and the entry
    that reverses it goes on top of the other one, whose other entries
    stay; [deleteShape] and [fillShape], when they record an action, empty
    [redoStack]. *)
Lemma store_stack_discipline (st : @Store.DrawingState num)
    (a : Store.UndoAction) (rest : list Store.UndoAction) :
  (Store.undoStack st = [] -> Store.undo st = Some st)
  /\ (Store.redoStack st = [] -> Store.redo st = Some st)
  /\ (Store.undoStack st = rest ++ [a] ->
      forall st', Store.undo st = Some st' ->
      Store.undoStack st' = rest
      /\ exists inverse, Store.redoStack st' = Store.redoStack st ++ [inverse])
  /\ (Store.redoStack st = rest ++ [a] ->
      forall st', Store.redo st = Some st' ->
      Store.redoStack st' = rest
      /\ exists inverse, Store.undoStack st' = Store.undoStack st ++ [inverse])
  /\ (forall shapeId,
        Store.deleteShape shapeId st = st
        \/ Store.redoStack (Store.deleteShape shapeId st) = [])
  /\ (forall shapeId newColor,
        Store.fillShape shapeId newColor st = st
        \/ Store.redoStack (Store.fillShape shapeId newColor st) = []).
Proof.
  split; [|split; [|split; [|split; [|split]]]].
  - intros Hstack. unfold Store.undo. by rewrite Hstack.
  - intros Hstack. unfold Store.redo. by rewrite Hstack.
  - intros Hstack st'. unfold Store.undo. rewrite Hstack, pop_app.
    destruct (Store.applyAction a st) as [[[newShapes palette] inverse]|];
      [|done].
    simpl. intros [= <-]. split; [done | by exists inverse].
  - intros Hstack st'. unfold Store.redo. rewrite Hstack, pop_app.
    destruct (Store.applyAction a st) as [[[newShapes palette] inverse]|];
      [|done].
    simpl. intros [= <-]. split; [done | by exists inverse].
  - intros shapeId. unfold Store.deleteShape.
    destruct (find _ _); [by right | by left].
  - intros shapeId newColor. unfold Store.fillShape.
    destruct (find _ _) as [s|]; [|by left].
    destruct (String.eqb _ _); [by left | by right].
Qed.

End DeleteUndoFacts.

(** ** Sessions in binary64 *)

(** Shapes compared by id, points and colour, the points as [===]
    compares their coordinates. *)
Section Comparison.
Context {num : Type} `{JSNumber num}.

Fixpoint samePoints (l1 l2 : list (Point num)) : bool :=
  match l1, l2 with
  | [], [] => true
  | p :: l1', q :: l2' =>
      (x p =? x q)%js && (y p =? y q)%js && samePoints l1' l2'
  | _, _ => false
  end.

Definition sameShape (s1 s2 : Shape num) : bool :=
  (id s1 =? id s2)%nat && samePoints (points s1) (points s2)
  && String.eqb (color s1) (color s2).

(** The same set of shapes. *)
Definition sameShapeSet (l1 l2 : list (Shape num)) : bool :=
  forallb (fun s => existsb (sameShape s) l2) l1
  && forallb (fun s => existsb (sameShape s) l1) l2.

End Comparison.

(** The screen point of a grid point. *)
Definition grid (gx gy : Z) : Point float :=
  gridToScreen Float64.isoWidth Float64.isoHeight (int gx) (int gy).

(** The triangle on the grid points (0, 0), (2, 0), (1, 2), the first
    shape drawn in the sessions below. *)
Definition firstTriangle : Shape float :=
  mkShape 1 [grid 0 0; grid 2 0; grid 1 2] "#000000".


Module StoreSession.
Import Float64 Store.

Definition click (p : Point float) (st : option DrawingState)
    : option DrawingState :=
  st ≫= Engine.handleMouseDown isoWidth isoHeight 0 (x p) (y p).

(** Two triangles drawn on the empty canvas, each closed by a click on
    its first point. *)
Definition drawn : option DrawingState :=
  foldl (fun st p => click p st) (Some initialState)
    [grid 0 0; grid 2 0; grid 1 2; grid 0 0;
     grid 5 5; grid 7 5; grid 6 7; grid 5 5].

Definition drawnState : DrawingState := default initialState drawn.

(** Edit tool: the first point of the second triangle is dragged from
    grid point (5, 5) to (4, 6) and released. *)
Definition edited : option DrawingState :=
  st ← click (grid 5 5) (setActiveTool edit <$> drawn);
  st ← dragPoint (snap isoWidth isoHeight (x (grid 4 6)) (y (grid 4 6))) st;
  finishDraggingPoint st.

(** Delete tool: a click inside the first triangle. *)
Definition deleted : option DrawingState :=
  click (mkPoint 410 325)%float (setActiveTool delete_ <$> edited).

Definition undoneOnce : option DrawingState := deleted ≫= undo.
Definition undoneTwice : option DrawingState := undoneOnce ≫= undo.

End StoreSession.

Module ScriptSession.
Import Float64 Script.

Definition click (p : Point float) (t : Tool) : Tool :=
  handleMouseDown isoWidth isoHeight 0 (x p) (y p) t.

(** Three points placed: a triangle before its closing click. *)
Definition threePlaced : Tool :=
  foldl (fun t p => click p t) (newTool "#000000") [grid 0 0; grid 2 0; grid 1 2].

(** Two triangles, each closed by a click on its first point. *)
Definition twoTriangles : Tool :=
  foldl (fun t p => click p t) (newTool "#000000")
    [grid 0 0; grid 2 0; grid 1 2; grid 0 0;
     grid 5 5; grid 7 5; grid 6 7; grid 5 5].




(** The delete tool over a canvas that holds the line from the grid point
    (0, 0) to (-3, 0): from (400, 300) to (322.05771365940052, 255). *)
Definition line : Shape float := mkShape 1 [grid 0 0; grid (-3) 0] "#000000".

Definition deletingLine : Tool :=
  setActiveTool delete_ (withShapes [line] (newTool "#000000")).

End ScriptSession.

(** *** C2 in the zustand store *)

(** C2 fails in the zustand store.  From the canvas with two triangles,
    two commands are executed (the first point of triangle 2 is dragged,
    triangle 1 is deleted) and [undo] is called twice: both stacks are as
    before the two commands, but the shapes are not.  Undoing the
    deletion appends triangle 1, so the index 1 that the edit recorded
    now names triangle 1: triangle 2 keeps the dragged point and
    triangle 1 gets the old point of triangle 2. *)
Lemma C2_store_undo_does_not_restore :
  exists before after2 after0 : Store.DrawingState,
    StoreSession.drawn = Some before
    /\ StoreSession.deleted = Some after2
    /\ StoreSession.undoneTwice = Some after0
    /\ length (Store.undoStack after2) = length (Store.undoStack before) + 2
    /\ Store.undoStack after0 = Store.undoStack before
    /\ id <$> Store.shapes before = [1; 2]
    /\ id <$> Store.shapes after0 = [2; 1]
    /\ sameShapeSet (Store.shapes after0) (Store.shapes before) = false
    /\ forallb (fun s => negb (existsb (sameShape s) (Store.shapes before)))
         (Store.shapes after0) = true.
Proof.
  eexists _, _, _.
  split; [vm_compute; reflexivity|].
  split; [vm_compute; reflexivity|].
  split; [vm_compute; reflexivity|].
  vm_compute. repeat split; reflexivity.
Qed.

(** *** Witnesses and counterexamples *)





(** Delete mode has no test on the number of points, and in binary64
    the two turns of the loop over a segment can round the crossing
    differently: a click at height 262 on the rounded crossing
    334.18206931238262 deletes the line of two points. *)
Lemma delete_hits_a_two_point_line :
  let t := ScriptSession.click (mkPoint 0x1.4e2e9c182e49ep+8 262)%float
             ScriptSession.deletingLine in
  length (points ScriptSession.line) = 2
  /\ Script.shapes ScriptSession.deletingLine = [ScriptSession.line]
  /\ isPointInPolygon (mkPoint 0x1.4e2e9c182e49ep+8 262)%float
       (points ScriptSession.line) = true
  /\ Script.shapes t = []
  /\ length (Script.undoStack t) = 1.
Proof. vm_compute. repeat split; reflexivity. Qed.

(** In binary64 the tolerance is 144. *)
Lemma closeToleranceSq_binary64 : @closeToleranceSq float _ = 144%float.
Proof. vm_compute. reflexivity. Qed.

Lemma C6_closing_click_witness :
  let t := ScriptSession.threePlaced in
  let t' := ScriptSession.click (grid 0 0) t in
  Script.shapes t' = [firstTriangle]
  /\ Script.isDrawing t' = false
  /\ Script.currentShapePoints t' = [].
Proof.
  destruct (C6_closing_click Float64.isoWidth Float64.isoHeight
              (x (grid 0 0)) (y (grid 0 0)) ScriptSession.threePlaced
              (grid 0 0) [grid 2 0; grid 1 2]) as (Hcloses & _ & _);
    try (vm_compute; reflexivity).
  apply Hcloses. split; [vm_compute; lia | vm_compute; reflexivity].
Defined.

Lemma C9_import_execute_witness :
  let again := [firstTriangle; mkShape 3 [grid 0 0; grid 1 0] "#FF0000"] in
  let once :=
    (Script.execute (Script.ImportShapesCommand again)
       ScriptSession.twoTriangles).2 in
  let twice := (Script.execute (Script.ImportShapesCommand again) once).2 in
  twice = once
  /\ Script.shapes twice = Script.shapes once
  /\ NoDup (id <$> Script.shapes once)
  /\ NoDup (id <$> Script.shapes twice).
Proof.
  apply (C9_import_execute_idempotent
           [firstTriangle; mkShape 3 [grid 0 0; grid 1 0] "#FF0000"]
           ScriptSession.twoTriangles).
  vm_compute. apply (bool_decide_unpack _). vm_compute. exact I.
Defined.

Lemma C10_no_match_witness :
  (Store.deleteShape 7 StoreSession.drawnState = StoreSession.drawnState
   /\ Store.fillShape 7 "#FF0000" StoreSession.drawnState
      = StoreSession.drawnState)
  /\ Store.fillShape 1 "#000000" StoreSession.drawnState
     = StoreSession.drawnState.
Proof.
  destruct (C10_no_match_no_change StoreSession.drawnState 7 "#FF0000")
    as [Hnone _].
  destruct (C10_no_match_no_change StoreSession.drawnState 1 "#000000")
    as [_ Hsame].
  split.
  - apply Hnone. intros s Hs. vm_compute in Hs.
    apply elem_of_cons in Hs as [->|Hs]; [done|].
    apply elem_of_cons in Hs as [->|Hs]; [done|].
    by apply elem_of_nil in Hs.
  - apply (Hsame firstTriangle); vm_compute; reflexivity.
Defined.

(** *** An import *)

Module ImportSession.
Import Float64.

Fixpoint decimal (s : string) (acc : Z) : option Z :=
  match s with
  | EmptyString => Some acc
  | String c s' =>
      let n := Z.of_nat (nat_of_ascii c) in
      if ((48 <=? n) && (n <=? 57))%Z then decimal s' (10 * acc + (n - 48))%Z
      else None
  end.

(** A stand-in for [parseFloat] in the example below, right on the
    strings of decimal digits it is given there: any other string is read
    as NaN. *)
Definition parseDigits (s : string) : float :=
  match s with
  | EmptyString => nan
  | _ => match decimal s 0 with Some z => of_Z z | None => nan end
  end.

(** A document with a triangle that names no colour, a line whose first
    pair is not numeric, and an element without points. *)
Definition document : SVGDocument :=
  mkDocument None
    [mkElement (Some "100,100 130,100  115,130 ") None None;
     mkElement (Some "10,x 20,20") (Some "#FF0000") None;
     mkElement None (Some "#00FF00") None]%string.

Definition imported : list (list (Point float) * string) :=
  parseSVGContent isoWidth isoHeight parseDigits (fun _ => document) "".

End ImportSession.

(** The parser on [ImportSession.document]: one shape, the triangle, its
    three points snapped and its colour the default. *)
Lemma import_example :
  ImportSession.imported
  = [([snap Float64.isoWidth Float64.isoHeight 100 100;
       snap Float64.isoWidth Float64.isoHeight 130 100;
       snap Float64.isoWidth Float64.isoHeight 115 130]%float,
      "#000000"%string)].
Proof. vm_compute. reflexivity. Qed.


(** ** script.js: undoing a whole session *)

Section UndoAll.
Context {num : Type} `{JSNumber num}.
Variables isoWidth isoHeight : num.
Import Script.

Abbreviation Tool := (@Tool num).
Abbreviation Command := (@Command num).

(** A gesture of the user that the tool answers as a whole: a left click;
    a press, the moves that follow and the release; the clear button; a
    file picked for import. *)
Inductive Gesture :=
| Click (canvasX canvasY : num)
| Drag (canvasX canvasY : num) (moves : list (num * num))
| Clear
| Import (importedShapesData : list (list (Point num) * string))
| SelectTool (toolName : ToolName)
| PickColor (c : string).

Definition perform (g : Gesture) (t : Tool) : option Tool :=
  match g with
  | Click canvasX canvasY =>
      Some (handleMouseDown isoWidth isoHeight 0 canvasX canvasY t)
  | Drag canvasX canvasY moves =>
      t1 ← foldl
             (fun t' move =>
                t' ≫= handleMouseMove isoWidth isoHeight move.1 move.2)
             (Some (handleMouseDown isoWidth isoHeight 0 canvasX canvasY t))
             moves;
      handleMouseUp (Some 0) t1
  | Clear => Some (clearCanvas t)
  | Import importedShapesData => Some (importShapes importedShapesData t)
  | SelectTool toolName => Some (setActiveTool toolName t)
  | PickColor c => Some (withCurrentColor c t)
  end.







(** *** One command, executed and undone *)
















(** *** A drag *)











(** *** The counter never goes down *)






End UndoAll.

(** The session that the zustand store does not undo
    ([C2_store_undo_does_not_restore]), on [script.js]: from the two
    triangles, the first point of the second one is dragged from grid
    point (5, 5) to (4, 6), then the first triangle is deleted. *)
Module UndoSession.
Import Float64 Script.

Definition gestures : list (@Gesture float) :=
  [SelectTool edit;
   Drag (x (grid 5 5)) (y (grid 5 5)) [(x (grid 4 6), y (grid 4 6))];
   SelectTool delete_;
   Click 410 325]%float.

Definition run (gs : list Gesture) (t : Tool) : option Tool :=
  foldl (fun t' g => t' ≫= perform isoWidth isoHeight g) (Some t) gs.

Definition editing : Tool := setActiveTool edit ScriptSession.twoTriangles.
Definition dragged : Tool := default editing (run (take 2 gestures) ScriptSession.twoTriangles).
Definition deleting : Tool := setActiveTool delete_ dragged.
Definition deleted : Tool := default deleting (run gestures ScriptSession.twoTriangles).

End UndoSession.


